(** * Scope guards of the Shenandoah collector (shenandoahUtils.cpp)

    A shallow embedding of
    [hotspot/src/share/vm/gc_implementation/shenandoah/shenandoahUtils.cpp]:
    the session, pause, phase, allocation-trace and worker-session guards.
    Constructors and destructors are functions in a state-and-failure monad
    over the part of the VM state the file reads and writes. *)

From Stdlib Require Import ZArith Bool List String Floats Lia.
Import ListNotations.
Local Open Scope Z_scope.

(** ** What the translation unit takes from its headers

    The enumerators, sentinels, the build configuration and the two VM flags
    are declared in headers that are not part of this unit; they are taken as
    parameters.  C++ enumerations and [uint]/[size_t]/[intx] values are
    integers ([Z]); the unit only copies and compares them. *)

Class VM : Type := {
  (** [#ifdef ASSERT]: a debug-checked build. *)
  ASSERT : bool;
  (** [ShenandoahPhaseTimings::Phase] enumerators named by the unit. *)
  scan_roots : Z;
  update_roots : Z;
  init_evac : Z;
  final_update_refs_roots : Z;
  degen_gc_update_roots : Z;
  init_traversal_gc_work : Z;
  final_traversal_gc_work : Z;
  final_traversal_update_roots : Z;
  full_gc_roots : Z;
  _num_phases : Z;
  (** [ShenandoahGCPhase::_invalid_phase]. *)
  _invalid_phase : Z;
  (** [GCCause::_no_gc]. *)
  _no_gc : Z;
  (** [INVALID_WORKER_ID]. *)
  INVALID_WORKER_ID : Z;
  (** The VM flags: fixed at start-up, only read here. *)
  ShenandoahAllocationTrace : bool;
  ShenandoahAllocationStallThreshold : Z
}.

(** ** Failure

    A failed [assert] reports the error and terminates the VM; dereferencing
    a null pointer has no defined behaviour. *)

Inductive result (A : Type) : Type :=
| Ok (a : A)
| Fatal (msg : string)
| Undefined.
Arguments Ok {A} a.
Arguments Fatal {A} msg.
Arguments Undefined {A}.

(** ** State *)

(** Modelled from the spec: [Thread] (thread.hpp), as seen through
    [Thread::current()]: the role of the calling thread and its thread-local
    worker-identity slot. *)
Record Thread : Type := mkThread {
  is_VM_thread : bool;
  is_ConcurrentGC_thread : bool;
  worker_id : Z
}.

(** Modelled from the spec: the cycle timer ([GCTimer], gcTimer.hpp) keeps the
    start and end time of the cycle; [register_gc_start]/[register_gc_end]
    store the current tick count. *)
Record GCTimer : Type := mkTimer {
  gc_start : Z;
  gc_end : Z
}.

(** Calls into the collaborators, in program order. *)
Inductive Call : Type :=
| tracer_report_gc_start (cause start : Z)
| tracer_report_gc_end (stop : Z)
| heap_trace_heap_BeforeGC
| policy_record_cycle_start
| heuristics_record_cycle_start
| heuristics_record_cycle_end
| heuristics_record_gc_start
| heuristics_record_gc_end
| timer_register_gc_phase_start (name : string) (time : Z)
| timer_register_gc_phase_end (time : Z)
| phase_timings_record_phase_start (phase : Z)
| phase_timings_record_phase_end (phase : Z).

(** One [record_alloc_latency(words_size, alloc_type, latency_us)] call. *)
Record AllocLatency : Type := mkLatency {
  lat_words_size : Z;
  lat_alloc_type : Z;
  lat_us : float
}.

(** One [log_warning(gc)("Allocation stall: ...")] line with its arguments. *)
Record Warning : Type := Allocation_stall {
  stall_us : float;
  stall_threshold : Z
}.

Record State : Type := mkState {
  (** [ShenandoahGCPhase::_current_phase], a static of the class. *)
  _current_phase : Z;
  (** [ShenandoahHeap::gc_cause()]. *)
  gc_cause : Z;
  (** [ShenandoahHeap::gc_timer()]. *)
  gc_timer : GCTimer;
  (** [ShenandoahHeap::alloc_tracker()]: [None] is the null pointer, [Some l]
      a tracker that received the records [l]. *)
  alloc_tracker : option (list AllocLatency);
  (** [Thread::current()]. *)
  thread : Thread;
  (** What [os::elapsedTime()] and [Ticks::now()] read now. *)
  elapsedTime : float;
  ticks : Z;
  (** Calls made and warnings logged so far, oldest first. *)
  calls : list Call;
  warnings : list Warning
}.

Definition with_current_phase (p : Z) (s : State) : State :=
  mkState p (gc_cause s) (gc_timer s) (alloc_tracker s) (thread s)
          (elapsedTime s) (ticks s) (calls s) (warnings s).

Definition with_gc_cause (c : Z) (s : State) : State :=
  mkState (_current_phase s) c (gc_timer s) (alloc_tracker s) (thread s)
          (elapsedTime s) (ticks s) (calls s) (warnings s).

Definition with_gc_timer (t : GCTimer) (s : State) : State :=
  mkState (_current_phase s) (gc_cause s) t (alloc_tracker s) (thread s)
          (elapsedTime s) (ticks s) (calls s) (warnings s).

Definition with_alloc_tracker (t : option (list AllocLatency)) (s : State) : State :=
  mkState (_current_phase s) (gc_cause s) (gc_timer s) t (thread s)
          (elapsedTime s) (ticks s) (calls s) (warnings s).

Definition with_thread (t : Thread) (s : State) : State :=
  mkState (_current_phase s) (gc_cause s) (gc_timer s) (alloc_tracker s) t
          (elapsedTime s) (ticks s) (calls s) (warnings s).

Definition with_clock (now : float) (tk : Z) (s : State) : State :=
  mkState (_current_phase s) (gc_cause s) (gc_timer s) (alloc_tracker s) (thread s)
          now tk (calls s) (warnings s).

Definition with_calls (l : list Call) (s : State) : State :=
  mkState (_current_phase s) (gc_cause s) (gc_timer s) (alloc_tracker s) (thread s)
          (elapsedTime s) (ticks s) l (warnings s).

Definition with_warnings (l : list Warning) (s : State) : State :=
  mkState (_current_phase s) (gc_cause s) (gc_timer s) (alloc_tracker s) (thread s)
          (elapsedTime s) (ticks s) (calls s) l.

(** ** The monad *)

Definition M (A : Type) : Type := State -> result (A * State).

Definition ret {A : Type} (a : A) : M A := fun s => Ok (a, s).

Definition bind {A B : Type} (c : M A) (k : A -> M B) : M B :=
  fun s =>
    match c s with
    | Ok (a, s') => k a s'
    | Fatal msg => Fatal msg
    | Undefined => Undefined
    end.

Notation "x <- c ;; k" := (bind c (fun x => k))
  (at level 61, c at next level, right associativity).
Notation "c ;; k" := (bind c (fun _ => k))
  (at level 61, right associativity).

Definition get {A : Type} (f : State -> A) : M A := fun s => Ok (f s, s).
Definition modify (f : State -> State) : M unit := fun s => Ok (tt, f s).
Definition call (c : Call) : M unit :=
  modify (fun s => with_calls (calls s ++ [c]) s).

Section Guards.

Context {vm : VM}.

(** Modelled from the spec: the [assert(p, msg)] macro (utilities/debug.hpp),
    a debug-only contract check: compiled in [ASSERT] builds only, where a
    failed check is fatal. *)
Definition assert (p : bool) (msg : string) : M unit :=
  fun s => if ASSERT then (if p then Ok (tt, s) else Fatal msg) else Ok (tt, s).

(** *** Collaborators *)

(** Modelled from the spec: [TraceMemoryManagerStats] (memoryService.hpp),
    the trace record a guard initializes; [initialize] stores its arguments,
    in the order the call sites name them. *)
Record TraceMemoryManagerStats : Type := initialize {
  fullGC : bool;
  cause : Z;
  allMemoryPoolsAffected : bool;
  recordGCBeginTime : bool;
  recordPreGCUsage : bool;
  recordPeakUsage : bool;
  recordPostGCUsage : bool;
  recordAccumulatedGCTime : bool;
  recordGCEndTime : bool;
  countCollection : bool
}.

Definition heap_set_gc_cause (c : Z) : M unit := modify (with_gc_cause c).

Definition timer_register_gc_start : M unit :=
  modify (fun s => with_gc_timer (mkTimer (ticks s) (gc_end (gc_timer s))) s).

Definition timer_register_gc_end : M unit :=
  modify (fun s => with_gc_timer (mkTimer (gc_start (gc_timer s)) (ticks s)) s).

Definition set_worker_id (id : Z) : M unit :=
  modify (fun s =>
    with_thread (mkThread (is_VM_thread (thread s))
                          (is_ConcurrentGC_thread (thread s)) id) s).

(** *** ShenandoahGCPhase *)

Record ShenandoahGCPhase : Type := mkPhase {
  _phase : Z;
  _parent_phase : Z
}.

Definition current_phase : M Z := get _current_phase.

Definition ShenandoahGCPhase_ctor (phase : Z) : M ShenandoahGCPhase :=
  thr <- get thread ;;
  assert (is_VM_thread thr || is_ConcurrentGC_thread thr)
         "Must be set by these threads" ;;
  parent <- get _current_phase ;;
  modify (with_current_phase phase) ;;
  call (phase_timings_record_phase_start phase) ;;
  ret (mkPhase phase parent).

Definition ShenandoahGCPhase_dtor (this : ShenandoahGCPhase) : M unit :=
  call (phase_timings_record_phase_end (_phase this)) ;;
  modify (with_current_phase (_parent_phase this)).

Definition is_valid_phase (phase : Z) : bool :=
  (phase >=? 0) && (phase <? _num_phases).

Definition is_root_work_phase : M bool :=
  p <- current_phase ;;
  if (p =? scan_roots)
     || (p =? update_roots)
     || (p =? init_evac)
     || (p =? final_update_refs_roots)
     || (p =? degen_gc_update_roots)
     || (p =? init_traversal_gc_work)
     || (p =? final_traversal_gc_work)
     || (p =? final_traversal_update_roots)
     || (p =? full_gc_roots)
  then ret true
  else ret false.

(** *** ShenandoahGCSession *)

Record ShenandoahGCSession : Type := mkSession {
  _trace_cycle : TraceMemoryManagerStats
}.

Definition ShenandoahGCSession_ctor (cause : Z) : M ShenandoahGCSession :=
  p <- current_phase ;;
  assert (negb (is_valid_phase p)) "No current GC phase" ;;
  heap_set_gc_cause cause ;;
  timer_register_gc_start ;;
  start <- get (fun s => gc_start (gc_timer s)) ;;
  call (tracer_report_gc_start cause start) ;;
  call heap_trace_heap_BeforeGC ;;
  call policy_record_cycle_start ;;
  call heuristics_record_cycle_start ;;
  ret (mkSession
         (initialize false cause
            (* allMemoryPoolsAffected *)    true
            (* recordGCBeginTime = *)       true
            (* recordPreGCUsage = *)        true
            (* recordPeakUsage = *)         true
            (* recordPostGCUsage = *)       true
            (* recordAccumulatedGCTime = *) true
            (* recordGCEndTime = *)         true
            (* countCollection = *)         true)).

Definition ShenandoahGCSession_dtor (this : ShenandoahGCSession) : M unit :=
  call heuristics_record_cycle_end ;;
  stop <- get (fun s => gc_end (gc_timer s)) ;;
  call (tracer_report_gc_end stop) ;;
  timer_register_gc_end ;;
  p <- current_phase ;;
  assert (negb (is_valid_phase p)) "No current GC phase" ;;
  heap_set_gc_cause _no_gc.

(** *** ShenandoahGCPauseMark *)

Record ShenandoahGCPauseMark : Type := mkPauseMark {
  _svc_gc_mark : Z;
  _trace_pause : TraceMemoryManagerStats
}.

Definition ShenandoahGCPauseMark_ctor (type : Z) : M ShenandoahGCPauseMark :=
  now <- get ticks ;;
  call (timer_register_gc_phase_start "Shenandoah" now) ;;
  c <- get gc_cause ;;
  let trace_pause :=
    initialize true c
      (* allMemoryPoolsAffected *)    true
      (* recordGCBeginTime = *)       true
      (* recordPreGCUsage = *)        false
      (* recordPeakUsage = *)         false
      (* recordPostGCUsage = *)       false
      (* recordAccumulatedGCTime = *) true
      (* recordGCEndTime = *)         true
      (* countCollection = *)         true in
  call heuristics_record_gc_start ;;
  ret (mkPauseMark type trace_pause).

Definition ShenandoahGCPauseMark_dtor (this : ShenandoahGCPauseMark) : M unit :=
  now <- get ticks ;;
  call (timer_register_gc_phase_end now) ;;
  call heuristics_record_gc_end.

(** *** ShenandoahAllocTrace *)

Record ShenandoahAllocTrace : Type := mkAllocTrace {
  _start : float;
  _size : Z;
  _alloc_type : Z
}.

(** The conversion of an [intx] to [double]: the nearest binary64 value. *)
Definition double_of_intx (z : Z) : float :=
  SF2Prim (binary_normalize prec emax z 0 false).

Definition ShenandoahAllocTrace_ctor (words_size alloc_type : Z)
  : M ShenandoahAllocTrace :=
  if ShenandoahAllocationTrace then
    now <- get elapsedTime ;;
    ret (mkAllocTrace now words_size alloc_type)
  else
    ret (mkAllocTrace 0%float 0 0).

(** [tracker->record_alloc_latency(...)]: through a null [tracker] the call
    has no defined behaviour. *)
Definition record_alloc_latency (words_size alloc_type : Z) (latency_us : float)
  : M unit :=
  fun s =>
    match alloc_tracker s with
    | Some l =>
        Ok (tt, with_alloc_tracker
                  (Some (l ++ [mkLatency words_size alloc_type latency_us])) s)
    | None => Undefined
    end.

Definition log_warning (w : Warning) : M unit :=
  modify (fun s => with_warnings (warnings s ++ [w]) s).

Definition ShenandoahAllocTrace_dtor (this : ShenandoahAllocTrace) : M unit :=
  if ShenandoahAllocationTrace then
    stop <- get elapsedTime ;;
    let duration_sec := (stop - _start this)%float in
    let duration_us := (duration_sec * 1000000)%float in
    tracker <- get alloc_tracker ;;
    assert (match tracker with Some _ => true | None => false end) "Must be" ;;
    record_alloc_latency (_size this) (_alloc_type this) duration_us ;;
    if (double_of_intx ShenandoahAllocationStallThreshold <? duration_us)%float
    then log_warning (Allocation_stall duration_us ShenandoahAllocationStallThreshold)
    else ret tt
  else
    ret tt.

(** *** ShenandoahWorkerSession and its two flavours *)

Record ShenandoahWorkerSession : Type := mkWorkerSession {
  _worker_id : Z
}.

Definition ShenandoahWorkerSession_ctor (id : Z) : M ShenandoahWorkerSession :=
  thr <- get thread ;;
  assert (worker_id thr =? INVALID_WORKER_ID) "Already set" ;;
  set_worker_id id ;;
  ret (mkWorkerSession id).

Definition ShenandoahWorkerSession_dtor (this : ShenandoahWorkerSession) : M unit :=
  if ASSERT then
    thr <- get thread ;;
    assert (negb (worker_id thr =? INVALID_WORKER_ID)) "Must be set" ;;
    set_worker_id INVALID_WORKER_ID
  else
    ret tt.

(** The derived destructors have empty bodies; the base destructor runs
    after them. *)
Definition ShenandoahConcurrentWorkerSession_dtor (this : ShenandoahWorkerSession)
  : M unit :=
  ret tt ;; ShenandoahWorkerSession_dtor this.

Definition ShenandoahParallelWorkerSession_dtor (this : ShenandoahWorkerSession)
  : M unit :=
  ret tt ;; ShenandoahWorkerSession_dtor this.

(** ** Bracketed work

    Guards are stack objects: the work between a constructor and its
    destructor is a block, and leaving the block, normally or not, runs the
    destructor.  [work] is the shape of such blocks: the guards nest like the
    braces of the program. *)

Inductive work : Type :=
| Skip
| Seq (w1 w2 : work)
(** Time passes: the clocks read [now] and [tk] from here on. *)
| Elapse (now : float) (tk : Z)
(** The block is left early (a return out of it, or an unwind). *)
| Leave
(** [{ ShenandoahGCPhase guard(p); body }] *)
| InPhase (p : Z) (body : work)
(** [{ ShenandoahGCPauseMark mark(type); body }] *)
| InPause (type : Z) (body : work).

Inductive exit : Type := Normal | Unwinding.

Fixpoint exec (w : work) : M exit :=
  match w with
  | Skip => ret Normal
  | Seq w1 w2 =>
      e <- exec w1 ;;
      match e with
      | Normal => exec w2
      | Unwinding => ret Unwinding
      end
  | Elapse now tk => modify (with_clock now tk) ;; ret Normal
  | Leave => ret Unwinding
  | InPhase p body =>
      guard <- ShenandoahGCPhase_ctor p ;;
      e <- exec body ;;
      ShenandoahGCPhase_dtor guard ;;
      ret e
  | InPause type body =>
      mark <- ShenandoahGCPauseMark_ctor type ;;
      e <- exec body ;;
      ShenandoahGCPauseMark_dtor mark ;;
      ret e
  end.

(** [{ ShenandoahGCSession session(cause); body }] *)
Definition in_session (cause : Z) (body : work) : M exit :=
  session <- ShenandoahGCSession_ctor cause ;;
  e <- exec body ;;
  ShenandoahGCSession_dtor session ;;
  ret e.

(** The calling thread may open phases. *)
Definition phase_thread (s : State) : bool :=
  is_VM_thread (thread s) || is_ConcurrentGC_thread (thread s).

(** The root-work phases, as the case labels list them. *)
Definition root_work_phases : list Z :=
  [scan_roots; update_roots; init_evac; final_update_refs_roots;
   degen_gc_update_roots; init_traversal_gc_work; final_traversal_gc_work;
   final_traversal_update_roots; full_gc_roots].

(** What the headers promise about the enumeration: the named enumerators
    lie in the declared range, and the sentinel does not. *)
Definition phases_declared : bool :=
  forallb is_valid_phase root_work_phases && negb (is_valid_phase _invalid_phase).

(** The duration, in microseconds, the destructor computes for a guard
    constructed when the clock read [start] and destroyed when it reads
    [stop]. *)
Definition duration_us (start stop : float) : float :=
  ((stop - start) * 1000000)%float.

(** The static initializer of [_current_phase]. *)
Definition static_init (s : State) : State := with_current_phase _invalid_phase s.

(** ** Sequences of scopes *)

(** The three destructors a worker session may end with. *)
Inductive flavour : Type := Base | Concurrent | Parallel.

Definition worker_session_dtor (f : flavour) : ShenandoahWorkerSession -> M unit :=
  match f with
  | Base => ShenandoahWorkerSession_dtor
  | Concurrent => ShenandoahConcurrentWorkerSession_dtor
  | Parallel => ShenandoahParallelWorkerSession_dtor
  end.

(** A worker thread running one task after another, each bracketed as
    [{ ShenandoahWorkerSession session(id); }] of the given flavour. *)
Fixpoint worker_tasks (tasks : list (flavour * Z)) : M unit :=
  match tasks with
  | [] => ret tt
  | (f, id) :: rest =>
      session <- ShenandoahWorkerSession_ctor id ;;
      worker_session_dtor f session ;;
      worker_tasks rest
  end.

(** The id the last task of a list assigns, [slot] when there is none. *)
Definition last_id (tasks : list (flavour * Z)) (slot : Z) : Z :=
  last (map snd tasks) slot.

(** One collection cycle after another, each bracketed by a session. *)
Fixpoint cycles (l : list (Z * work)) : M unit :=
  match l with
  | [] => ret tt
  | (c, body) :: rest => in_session c body ;; cycles rest
  end.

(** One allocation request: its size and type, and what [os::elapsedTime()]
    reads when the guard is constructed and when it is destroyed. *)
Record allocation : Type := mkAllocation {
  alloc_words : Z;
  alloc_kind : Z;
  alloc_begin : float;
  alloc_end : float
}.

Definition set_elapsedTime (now : float) : M unit :=
  modify (fun s => with_clock now (ticks s) s).

(** [{ ShenandoahAllocTrace trace(words, kind); ... }], one request after
    another. *)
Fixpoint allocations (l : list allocation) : M unit :=
  match l with
  | [] => ret tt
  | a :: rest =>
      set_elapsedTime (alloc_begin a) ;;
      trace <- ShenandoahAllocTrace_ctor (alloc_words a) (alloc_kind a) ;;
      set_elapsedTime (alloc_end a) ;;
      ShenandoahAllocTrace_dtor trace ;;
      allocations rest
  end.

(** What the tracker and the log receive for one request. *)
Definition latency_of (a : allocation) : AllocLatency :=
  mkLatency (alloc_words a) (alloc_kind a) (duration_us (alloc_begin a) (alloc_end a)).

Definition stalled (a : allocation) : bool :=
  (double_of_intx ShenandoahAllocationStallThreshold
   <? duration_us (alloc_begin a) (alloc_end a))%float.

Definition stall_of (a : allocation) : Warning :=
  Allocation_stall (duration_us (alloc_begin a) (alloc_end a))
                   ShenandoahAllocationStallThreshold.

(** ** Brackets in the record of calls

    The phase-timing table and the timer receive start and end calls; a
    record of calls is well bracketed when each end closes the most recent
    open start, and for a phase names the same phase. *)

Inductive bracket : Type :=
| PhaseBracket (p : Z)
| PauseBracket.

Definition step_bracket (c : Call) (stack : list bracket) : option (list bracket) :=
  match c with
  | phase_timings_record_phase_start p => Some (PhaseBracket p :: stack)
  | phase_timings_record_phase_end p =>
      match stack with
      | PhaseBracket q :: rest => if p =? q then Some rest else None
      | _ => None
      end
  | timer_register_gc_phase_start _ _ => Some (PauseBracket :: stack)
  | timer_register_gc_phase_end _ =>
      match stack with
      | PauseBracket :: rest => Some rest
      | _ => None
      end
  | _ => Some stack
  end.

Fixpoint brackets (cs : list Call) (stack : list bracket) : option (list bracket) :=
  match cs with
  | [] => Some stack
  | c :: rest =>
      match step_bracket c stack with
      | Some stack' => brackets rest stack'
      | None => None
      end
  end.

(** The pause notifications of the heuristics in a record of calls. *)
Definition pause_starts (cs : list Call) : nat :=
  List.length (filter (fun c => match c with heuristics_record_gc_start => true | _ => false end) cs).

Definition pause_ends (cs : list Call) : nat :=
  List.length (filter (fun c => match c with heuristics_record_gc_end => true | _ => false end) cs).

(** What a block of phase and pause guards leaves alone: everything but the
    record of calls and the clock. *)
Definition untouched (s s' : State) : Prop :=
  _current_phase s' = _current_phase s
  /\ gc_cause s' = gc_cause s
  /\ gc_timer s' = gc_timer s
  /\ alloc_tracker s' = alloc_tracker s
  /\ thread s' = thread s
  /\ warnings s' = warnings s.

End Guards.

(** ** Concrete configurations

    A small instance of the declarations, used to run the model: a debug or
    product build, with allocation tracing on or off. *)

Definition sample_vm (debug trace : bool) (threshold : Z) : VM := {|
  ASSERT := debug;
  scan_roots := 2;
  update_roots := 5;
  init_evac := 8;
  final_update_refs_roots := 11;
  degen_gc_update_roots := 14;
  init_traversal_gc_work := 17;
  final_traversal_gc_work := 20;
  final_traversal_update_roots := 23;
  full_gc_roots := 26;
  _num_phases := 30;
  _invalid_phase := 30;
  _no_gc := 12;
  INVALID_WORKER_ID := 4294967295;
  ShenandoahAllocationTrace := trace;
  ShenandoahAllocationStallThreshold := threshold
|}.

Definition VM_thread : Thread := mkThread true false 4294967295.
Definition worker_thread (id : Z) : Thread := mkThread false false id.

(** A state with the given current phase, calling thread and clock. *)
Definition sample_state (phase : Z) (thr : Thread) (now : float) : State :=
  mkState phase 12 (mkTimer 0 0) (Some []) thr now 1000 [] [].

(** A debug-checked and a product build, tracing on, threshold 100 us. *)
Definition debug_vm : VM := sample_vm true true 100.
Definition product_vm : VM := sample_vm false true 100.

(** A clock reading of [n] microseconds, in seconds. *)
Definition seconds_of_us (n : Z) : float := (double_of_intx n / 1000000)%float.

(** No phase active, on the VM thread; a pause with two nested phases, the
    inner one left early; a worker thread whose slot holds [slot]; two
    allocation requests of 150 and 50 microseconds. *)
Definition idle_state : State := sample_state 30 VM_thread 0%float.
Definition sample_block : work :=
  InPause 0 (InPhase 2 (Seq (InPhase 5 Leave) Skip)).
Definition worker_state (slot : Z) : State :=
  sample_state 30 (worker_thread slot) 0%float.
Definition sample_allocations : list allocation :=
  [mkAllocation 64 1 0%float (seconds_of_us 150);
   mkAllocation 8 0 0%float (seconds_of_us 50)].

(** * Properties *)

Section Properties.

Context {vm : VM}.

(** ** Assertions *)

Lemma assert_holds (msg : string) (s : State) : assert true msg s = Ok (tt, s).
Proof. unfold assert. destruct ASSERT; reflexivity. Qed.

Lemma assert_product (p : bool) (msg : string) (s : State) :
  ASSERT = false -> assert p msg s = Ok (tt, s).
Proof. intros H. unfold assert. rewrite H. reflexivity. Qed.

Lemma assert_fails (msg : string) (s : State) :
  ASSERT = true -> assert false msg s = Fatal msg.
Proof. intros H. unfold assert. rewrite H. reflexivity. Qed.

Lemma assert_unless_debug (p : bool) (msg : string) (s : State) :
  ASSERT = false \/ p = true -> assert p msg s = Ok (tt, s).
Proof.
  intros [H | H].
  - now apply assert_product.
  - subst p. apply assert_holds.
Qed.

(** Runs the straight-line part of a constructor or destructor. *)
Ltac run :=
  cbv [ShenandoahGCPhase_ctor ShenandoahGCPhase_dtor
       ShenandoahGCPauseMark_ctor ShenandoahGCPauseMark_dtor
       ShenandoahGCSession_ctor ShenandoahGCSession_dtor
       ShenandoahAllocTrace_ctor ShenandoahAllocTrace_dtor
       ShenandoahWorkerSession_ctor ShenandoahWorkerSession_dtor
       ShenandoahConcurrentWorkerSession_dtor ShenandoahParallelWorkerSession_dtor
       heap_set_gc_cause timer_register_gc_start timer_register_gc_end
       set_worker_id record_alloc_latency log_warning current_phase
       bind ret get modify call].

(** ** The phase registry *)

Lemma phase_ctor_runs (p : Z) (s : State) :
  ASSERT = false \/ phase_thread s = true ->
  ShenandoahGCPhase_ctor p s =
    Ok (mkPhase p (_current_phase s),
        with_calls (calls s ++ [phase_timings_record_phase_start p])
                   (with_current_phase p s)).
Proof.
  intros H. unfold ShenandoahGCPhase_ctor, bind, get.
  rewrite (assert_unless_debug _ _ s H). reflexivity.
Qed.

Lemma phase_dtor_runs (g : ShenandoahGCPhase) (s : State) :
  ShenandoahGCPhase_dtor g s =
    Ok (tt, with_current_phase (_parent_phase g)
              (with_calls (calls s ++ [phase_timings_record_phase_end (_phase g)]) s)).
Proof. reflexivity. Qed.

Lemma pause_ctor_runs (type : Z) (s : State) :
  exists mark s',
    ShenandoahGCPauseMark_ctor type s = Ok (mark, s')
    /\ _current_phase s' = _current_phase s
    /\ thread s' = thread s
    /\ gc_cause s' = gc_cause s.
Proof. eexists; eexists; split; [run; reflexivity | cbn; auto]. Qed.

Lemma pause_dtor_runs (mark : ShenandoahGCPauseMark) (s : State) :
  exists s',
    ShenandoahGCPauseMark_dtor mark s = Ok (tt, s')
    /\ _current_phase s' = _current_phase s
    /\ thread s' = thread s
    /\ gc_cause s' = gc_cause s.
Proof. eexists; split; [run; reflexivity | cbn; auto]. Qed.

(** Every block runs to its end, and leaves the registry, the calling thread
    and the cause as it found them: guards opened inside are closed inside. *)
Lemma exec_balanced (w : work) :
  forall s : State,
    ASSERT = false \/ phase_thread s = true ->
    exists e s',
      exec w s = Ok (e, s')
      /\ _current_phase s' = _current_phase s
      /\ thread s' = thread s
      /\ gc_cause s' = gc_cause s.
Proof.
  induction w as [ | w1 IH1 w2 IH2 | now tk | | p body IH | type body IH ];
    intros s Hthr; cbn [exec].
  - exists Normal, s. auto.
  - destruct (IH1 s Hthr) as (e1 & s1 & E1 & P1 & T1 & C1).
    unfold bind. rewrite E1. destruct e1.
    + assert (Hthr1 : ASSERT = false \/ phase_thread s1 = true)
        by (unfold phase_thread in *; rewrite T1; exact Hthr).
      destruct (IH2 s1 Hthr1) as (e2 & s2 & E2 & P2 & T2 & C2).
      exists e2, s2. repeat split; congruence.
    + exists Unwinding, s1. auto.
  - eexists; eexists; split; [reflexivity | cbn; auto].
  - exists Unwinding, s. auto.
  - unfold bind. rewrite (phase_ctor_runs p s Hthr).
    match goal with |- context [exec body ?s1] => set (s1' := s1) end.
    assert (Hthr1 : ASSERT = false \/ phase_thread s1' = true) by exact Hthr.
    destruct (IH s1' Hthr1) as (e & s2 & E & P & T & C).
    rewrite E, phase_dtor_runs. eexists; eexists; split; [reflexivity | ].
    cbn. repeat split; [ exact T | exact C ].
  - unfold bind.
    destruct (pause_ctor_runs type s) as (mark & s1 & E1 & P1 & T1 & C1).
    rewrite E1.
    assert (Hthr1 : ASSERT = false \/ phase_thread s1 = true)
      by (unfold phase_thread in *; rewrite T1; exact Hthr).
    destruct (IH s1 Hthr1) as (e & s2 & E & P & T & C).
    rewrite E.
    destruct (pause_dtor_runs mark s2) as (s3 & E3 & P3 & T3 & C3).
    rewrite E3. exists e, s3. repeat split; congruence.
Qed.

(** C1. Phase guards that nest like a stack restore the registry: after the
    destruction of each guard, [_current_phase] holds the value it held just
    before that guard was constructed.  For a block
    [{ ShenandoahGCPhase guard(p); body }] run from any state: the
    constructor makes [p] current, the body (any nesting of further guards,
    left normally or early) hands [p] back, and the destructor restores what
    was current before.  The second part spells out the sequence
    construct P1, construct P2, destroy P2, destroy P1. *)
Theorem phase_guard_restores_parent (s : State) :
  ASSERT = false \/ phase_thread s = true ->
  (forall (p : Z) (body : work),
      exists guard s1 e s2 s3,
        ShenandoahGCPhase_ctor p s = Ok (guard, s1)
        /\ _current_phase s1 = p
        /\ exec body s1 = Ok (e, s2)
        /\ _current_phase s2 = p
        /\ ShenandoahGCPhase_dtor guard s2 = Ok (tt, s3)
        /\ _current_phase s3 = _current_phase s
        /\ exec (InPhase p body) s = Ok (e, s3))
  /\ (forall P1 P2 : Z,
      exists g1 s1 g2 s2 s3 s4,
        ShenandoahGCPhase_ctor P1 s = Ok (g1, s1)
        /\ ShenandoahGCPhase_ctor P2 s1 = Ok (g2, s2)
        /\ ShenandoahGCPhase_dtor g2 s2 = Ok (tt, s3)
        /\ ShenandoahGCPhase_dtor g1 s3 = Ok (tt, s4)
        /\ _current_phase s3 = _current_phase s1
        /\ _current_phase s4 = _current_phase s).
Proof.
  intros Hthr. split.
  - intros p body.
    pose proof (phase_ctor_runs p s Hthr) as Ec.
    match type of Ec with _ = Ok (?g, ?s1) => set (guard := g) in *; set (s1' := s1) in * end.
    assert (Hthr1 : ASSERT = false \/ phase_thread s1' = true) by exact Hthr.
    destruct (exec_balanced body s1' Hthr1) as (e & s2 & E & P & T & C).
    exists guard, s1', e, s2. eexists.
    split; [exact Ec | ].
    split; [reflexivity | ].
    split; [exact E | ].
    split; [exact P | ].
    split; [apply phase_dtor_runs | ].
    split; [reflexivity | ].
    cbn [exec]. unfold bind. rewrite Ec, E, phase_dtor_runs. reflexivity.
  - intros P1 P2.
    pose proof (phase_ctor_runs P1 s Hthr) as E1.
    match type of E1 with _ = Ok (?g, ?s1) => set (g1 := g) in *; set (s1' := s1) in * end.
    assert (Hthr1 : ASSERT = false \/ phase_thread s1' = true) by exact Hthr.
    pose proof (phase_ctor_runs P2 s1' Hthr1) as E2.
    match type of E2 with _ = Ok (?g, ?s2) => set (g2 := g) in *; set (s2' := s2) in * end.
    exists g1, s1', g2, s2'. eexists. eexists.
    split; [exact E1 | ].
    split; [exact E2 | ].
    split; [apply phase_dtor_runs | ].
    split; [apply phase_dtor_runs | ].
    split; reflexivity.
Qed.

(** Why the guards must nest: destroying the outer guard before the inner
    one leaves the inner guard's phase in the registry once both are gone. *)
Lemma interleaved_guards_leave_stale_phase (P1 P2 : Z) (s : State) :
  ASSERT = false \/ phase_thread s = true ->
  exists g1 s1 g2 s2 s3 s4,
    ShenandoahGCPhase_ctor P1 s = Ok (g1, s1)
    /\ ShenandoahGCPhase_ctor P2 s1 = Ok (g2, s2)
    /\ ShenandoahGCPhase_dtor g1 s2 = Ok (tt, s3)
    /\ ShenandoahGCPhase_dtor g2 s3 = Ok (tt, s4)
    /\ _current_phase s4 = P1.
Proof.
  intros Hthr.
  pose proof (phase_ctor_runs P1 s Hthr) as E1.
  match type of E1 with _ = Ok (?g, ?s1) => set (g1 := g) in *; set (s1' := s1) in * end.
  assert (Hthr1 : ASSERT = false \/ phase_thread s1' = true) by exact Hthr.
  pose proof (phase_ctor_runs P2 s1' Hthr1) as E2.
  match type of E2 with _ = Ok (?g, ?s2) => set (g2 := g) in *; set (s2' := s2) in * end.
  exists g1, s1', g2, s2'. eexists. eexists.
  split; [exact E1 | ].
  split; [exact E2 | ].
  split; [apply phase_dtor_runs | ].
  split; [apply phase_dtor_runs | reflexivity].
Qed.

(** The switch of [is_root_work_phase], as a membership test. *)
Lemma root_work_switch (p : Z) :
  (p =? scan_roots)
  || (p =? update_roots)
  || (p =? init_evac)
  || (p =? final_update_refs_roots)
  || (p =? degen_gc_update_roots)
  || (p =? init_traversal_gc_work)
  || (p =? final_traversal_gc_work)
  || (p =? final_traversal_update_roots)
  || (p =? full_gc_roots) = true
  <-> In p root_work_phases.
Proof.
  unfold root_work_phases. cbn [In].
  rewrite !orb_true_iff, !Z.eqb_eq.
  intuition congruence.
Qed.

(** The query returns what the switch computes and leaves the state alone. *)
Lemma is_root_work_phase_runs (s : State) :
  is_root_work_phase s =
    Ok ((_current_phase s =? scan_roots)
        || (_current_phase s =? update_roots)
        || (_current_phase s =? init_evac)
        || (_current_phase s =? final_update_refs_roots)
        || (_current_phase s =? degen_gc_update_roots)
        || (_current_phase s =? init_traversal_gc_work)
        || (_current_phase s =? final_traversal_gc_work)
        || (_current_phase s =? final_traversal_update_roots)
        || (_current_phase s =? full_gc_roots), s).
Proof.
  unfold is_root_work_phase, bind, current_phase, get.
  destruct (_ || _); reflexivity.
Qed.

(** C8. [is_root_work_phase] only reads the current phase: the state after
    the call is the state before it, and the answer is [true] exactly when
    the current phase is one of the nine root-work phases. *)
Theorem is_root_work_phase_classifies (s : State) :
  exists b : bool,
    is_root_work_phase s = Ok (b, s)
    /\ (b = true <-> In (_current_phase s) root_work_phases).
Proof.
  eexists. split; [apply is_root_work_phase_runs | apply root_work_switch].
Qed.

Lemma invalid_phase_not_root_work :
  phases_declared = true -> ~ In _invalid_phase root_work_phases.
Proof.
  unfold phases_declared. rewrite andb_true_iff, negb_true_iff, forallb_forall.
  intros [Hall Hinv] Hin. apply Hall in Hin. congruence.
Qed.

Lemma not_root_work_outside (s : State) :
  ~ In (_current_phase s) root_work_phases ->
  is_root_work_phase s = Ok (false, s).
Proof.
  intros Hout. rewrite is_root_work_phase_runs.
  destruct (_ || _) eqn:E; [ | reflexivity ].
  exfalso. apply Hout, root_work_switch, E.
Qed.

(** C10. When no phase is active the query answers [false]: in the state the
    static initializer sets up, in any state whose registry holds the
    sentinel, and again after any block of guards run from such a state. *)
Theorem no_phase_is_not_root_work :
  phases_declared = true ->
  (forall s : State,
      is_root_work_phase (static_init s) = Ok (false, static_init s))
  /\ (forall s : State,
      _current_phase s = _invalid_phase ->
      is_root_work_phase s = Ok (false, s))
  /\ (forall (s : State) (w : work),
      _current_phase s = _invalid_phase ->
      ASSERT = false \/ phase_thread s = true ->
      exists e s',
        exec w s = Ok (e, s') /\ is_root_work_phase s' = Ok (false, s')).
Proof.
  intros Hdecl. pose proof (invalid_phase_not_root_work Hdecl) as Hout.
  repeat split.
  - intros s. apply not_root_work_outside. exact Hout.
  - intros s Hs. apply not_root_work_outside. rewrite Hs. exact Hout.
  - intros s w Hs Hthr.
    destruct (exec_balanced w s Hthr) as (e & s' & E & P & _).
    exists e, s'. split; [exact E | ].
    apply not_root_work_outside. rewrite P, Hs. exact Hout.
Qed.

(** ** The session guard *)

Lemma session_ctor_runs (c : Z) (s : State) :
  ASSERT = false \/ is_valid_phase (_current_phase s) = false ->
  exists s',
    ShenandoahGCSession_ctor c s =
      Ok (mkSession (initialize false c true true true true true true true true), s')
    /\ _current_phase s' = _current_phase s
    /\ thread s' = thread s
    /\ gc_cause s' = c.
Proof.
  intros H.
  assert (Ha : ASSERT = false \/ negb (is_valid_phase (_current_phase s)) = true)
    by (destruct H as [H | H]; [left; exact H | right; rewrite H; reflexivity]).
  unfold ShenandoahGCSession_ctor, bind, current_phase, get.
  rewrite (assert_unless_debug _ _ s Ha).
  eexists. split; [run; reflexivity | cbn; auto].
Qed.

Lemma session_dtor_runs (this : ShenandoahGCSession) (s : State) :
  ASSERT = false \/ is_valid_phase (_current_phase s) = false ->
  exists s0,
    ShenandoahGCSession_dtor this s = Ok (tt, with_gc_cause _no_gc s0)
    /\ _current_phase s0 = _current_phase s
    /\ thread s0 = thread s.
Proof.
  intros H.
  assert (Ha : ASSERT = false \/ negb (is_valid_phase (_current_phase s)) = true)
    by (destruct H as [H | H]; [left; exact H | right; rewrite H; reflexivity]).
  run.
  match goal with |- context [assert ?p ?m ?s1] =>
    change p with (negb (is_valid_phase (_current_phase s)));
    rewrite (assert_unless_debug _ m s1 Ha)
  end.
  eexists. split; [run; reflexivity | cbn; auto].
Qed.

Lemma session_dtor_result (this : ShenandoahGCSession) (s : State) :
  forall (u : unit) (s' : State),
    ShenandoahGCSession_dtor this s = Ok (u, s') ->
    exists s0, s' = with_gc_cause _no_gc s0.
Proof.
  intros u s'.
  run. unfold assert.
  destruct ASSERT; [ destruct (is_valid_phase _) | ]; cbn; intros H;
    solve [ discriminate H | injection H as _ <-; eexists; reflexivity ].
Qed.

Lemma session_fatal_when_phase_active (c : Z) (this : ShenandoahGCSession) (s : State) :
  ASSERT = true ->
  is_valid_phase (_current_phase s) = true ->
  ShenandoahGCSession_ctor c s = Fatal "No current GC phase"
  /\ ShenandoahGCSession_dtor this s = Fatal "No current GC phase".
Proof.
  intros Hd Hv.
  run. unfold assert. cbn. rewrite Hd, Hv. cbn. split; reflexivity.
Qed.

(** C2. In a debug-checked build the session constructor stops the VM with
    "No current GC phase" when the registry holds a valid phase, and the
    destructor makes the same check.  When no phase is active at the
    constructor and at the destructor, both run to their end (in every
    build): the failing branch of neither assertion is taken. *)
Theorem session_guard_phase_assertions
    (c : Z) (this : ShenandoahGCSession) (s_ctor s_dtor : State) :
  (ASSERT = true ->
   is_valid_phase (_current_phase s_ctor) = true ->
   ShenandoahGCSession_ctor c s_ctor = Fatal "No current GC phase")
  /\ (ASSERT = true ->
      is_valid_phase (_current_phase s_dtor) = true ->
      ShenandoahGCSession_dtor this s_dtor = Fatal "No current GC phase")
  /\ (is_valid_phase (_current_phase s_ctor) = false ->
      is_valid_phase (_current_phase s_dtor) = false ->
      (exists session s', ShenandoahGCSession_ctor c s_ctor = Ok (session, s'))
      /\ (exists s', ShenandoahGCSession_dtor this s_dtor = Ok (tt, s'))).
Proof.
  split; [ | split ].
  - intros Hd Hv. apply (session_fatal_when_phase_active c this s_ctor Hd Hv).
  - intros Hd Hv. apply (session_fatal_when_phase_active c this s_dtor Hd Hv).
  - intros Hc Hdt. split.
    + destruct (session_ctor_runs c s_ctor (or_intror Hc)) as (s' & E & _).
      eexists; eexists; exact E.
    + destruct (session_dtor_runs this s_dtor (or_intror Hdt)) as (s0 & E & _).
      eexists; exact E.
Qed.

Lemma session_ctor_result (c : Z) (s s1 : State) (session : ShenandoahGCSession) :
  ShenandoahGCSession_ctor c s = Ok (session, s1) ->
  (ASSERT = false \/ is_valid_phase (_current_phase s) = false)
  /\ _current_phase s1 = _current_phase s
  /\ thread s1 = thread s
  /\ gc_cause s1 = c.
Proof.
  run. unfold assert.
  destruct ASSERT; [ destruct (is_valid_phase _) | ]; cbn; intros H;
    solve [ discriminate H | injection H as _ <-; cbn; auto ].
Qed.

(** C6. Whenever the destructor of a session guard runs, it leaves the
    cause reset.  For a session that was opened (its constructor completed),
    whatever guards the bracketed work opens, and whether that work runs to
    its end or leaves early, the destructor runs, completes, and its last
    step stores [GCCause::_no_gc].  The second part is about the destructor
    alone: whenever it completes, the cause it leaves is [_no_gc], written by
    its last step. *)
Theorem session_dtor_resets_cause
    (c : Z) (body : work) (s s1 : State) (session : ShenandoahGCSession) :
  ShenandoahGCSession_ctor c s = Ok (session, s1) ->
  ASSERT = false \/ phase_thread s = true ->
  (exists e s2 s3,
      exec body s1 = Ok (e, s2)
      /\ ShenandoahGCSession_dtor session s2 = Ok (tt, s3)
      /\ gc_cause s3 = _no_gc
      /\ in_session c body s = Ok (e, s3))
  /\ (forall (this : ShenandoahGCSession) (s_dtor s' : State),
      ShenandoahGCSession_dtor this s_dtor = Ok (tt, s') ->
      gc_cause s' = _no_gc /\ exists s0, s' = with_gc_cause _no_gc s0).
Proof.
  intros Ec Hthr. split.
  - destruct (session_ctor_result c s s1 session Ec) as (Hv & P1 & T1 & C1).
    assert (Hthr1 : ASSERT = false \/ phase_thread s1 = true)
      by (unfold phase_thread in *; rewrite T1; exact Hthr).
    destruct (exec_balanced body s1 Hthr1) as (e & s2 & E & P2 & T2 & C2).
    assert (Hv2 : ASSERT = false \/ is_valid_phase (_current_phase s2) = false)
      by (destruct Hv as [Hv | Hv]; [left; exact Hv | right; congruence]).
    destruct (session_dtor_runs session s2 Hv2) as (s0 & Ed & _).
    exists e, s2; eexists.
    split; [exact E | ].
    split; [exact Ed | ].
    split; [reflexivity | ].
    unfold in_session, bind. rewrite Ec, E, Ed. reflexivity.
  - intros this s_dtor s' H.
    destruct (session_dtor_result this s_dtor tt s' H) as (s0 & ->).
    split; [reflexivity | exists s0; reflexivity].
Qed.

(** ** The trace records *)

(** C9. The pause guard initializes its record with the three usage
    snapshots (before, peak, after) disabled; the session guard, whenever it
    is constructed, initializes its record with all seven recording fields
    enabled. *)
Theorem trace_records_initialization :
  (forall (type : Z) (s : State),
      exists mark s',
        ShenandoahGCPauseMark_ctor type s = Ok (mark, s')
        /\ recordPreGCUsage (_trace_pause mark) = false
        /\ recordPeakUsage (_trace_pause mark) = false
        /\ recordPostGCUsage (_trace_pause mark) = false)
  /\ (forall (c : Z) (s s' : State) (session : ShenandoahGCSession),
      ShenandoahGCSession_ctor c s = Ok (session, s') ->
      recordGCBeginTime (_trace_cycle session) = true
      /\ recordPreGCUsage (_trace_cycle session) = true
      /\ recordPeakUsage (_trace_cycle session) = true
      /\ recordPostGCUsage (_trace_cycle session) = true
      /\ recordAccumulatedGCTime (_trace_cycle session) = true
      /\ recordGCEndTime (_trace_cycle session) = true
      /\ countCollection (_trace_cycle session) = true)
  /\ (forall (c : Z) (s : State),
      is_valid_phase (_current_phase s) = false ->
      exists session s', ShenandoahGCSession_ctor c s = Ok (session, s')).
Proof.
  split; [ | split ].
  - intros type s. eexists; eexists.
    split; [run; reflexivity | cbn; auto].
  - intros c s s' session.
    run. unfold assert.
    destruct ASSERT; [ destruct (is_valid_phase _) | ]; cbn; intros H;
      solve [ discriminate H | injection H as <- _; cbn; auto 10 ].
  - intros c s Hv.
    destruct (session_ctor_runs c s (or_intror Hv)) as (s' & E & _).
    eexists; eexists; exact E.
Qed.

(** ** The worker session guard *)

(** C7. In a debug-checked build, constructing a worker session on a thread
    whose slot is not [INVALID_WORKER_ID] stops the VM with "Already set".
    When the slot holds the sentinel the constructor runs to its end (in
    every build), the slot then holds the given id, and nothing else of the
    thread changes. *)
Theorem worker_session_ctor_contract (id : Z) (s : State) :
  (ASSERT = true ->
   worker_id (thread s) <> INVALID_WORKER_ID ->
   ShenandoahWorkerSession_ctor id s = Fatal "Already set")
  /\ (worker_id (thread s) = INVALID_WORKER_ID ->
      ShenandoahWorkerSession_ctor id s =
        Ok (mkWorkerSession id,
            with_thread (mkThread (is_VM_thread (thread s))
                                  (is_ConcurrentGC_thread (thread s)) id) s)).
Proof.
  split.
  - intros Hd Hne. apply Z.eqb_neq in Hne.
    run. unfold assert. cbn. rewrite Hd, Hne. reflexivity.
  - intros He. apply Z.eqb_eq in He.
    unfold ShenandoahWorkerSession_ctor, bind, get.
    rewrite He, assert_holds. reflexivity.
Qed.

(** C3, as the code has it.  The body of the base destructor is compiled
    only under [ASSERT].  In a debug-checked build it checks that the slot
    holds a valid id (stopping the VM with "Must be set" otherwise) and
    resets the slot to [INVALID_WORKER_ID]; in a product build it does
    nothing, and the slot keeps the id. *)
Theorem worker_session_dtor_by_build (this : ShenandoahWorkerSession) (s : State) :
  (ASSERT = true ->
   worker_id (thread s) <> INVALID_WORKER_ID ->
   ShenandoahWorkerSession_dtor this s =
     Ok (tt, with_thread (mkThread (is_VM_thread (thread s))
                                   (is_ConcurrentGC_thread (thread s))
                                   INVALID_WORKER_ID) s))
  /\ (ASSERT = true ->
      worker_id (thread s) = INVALID_WORKER_ID ->
      ShenandoahWorkerSession_dtor this s = Fatal "Must be set")
  /\ (ASSERT = false ->
      ShenandoahWorkerSession_dtor this s = Ok (tt, s)).
Proof.
  split; [ | split ].
  - intros Hd Hne. apply Z.eqb_neq in Hne.
    run. unfold assert. cbn. rewrite Hd, Hne. reflexivity.
  - intros Hd He. apply Z.eqb_eq in He.
    run. unfold assert. cbn. rewrite Hd, He. reflexivity.
  - intros Hd. unfold ShenandoahWorkerSession_dtor. rewrite Hd. reflexivity.
Qed.

(** The two flavours add nothing to the base destructor. *)
Lemma worker_session_flavours (this : ShenandoahWorkerSession) (s : State) :
  ShenandoahConcurrentWorkerSession_dtor this s = ShenandoahWorkerSession_dtor this s
  /\ ShenandoahParallelWorkerSession_dtor this s = ShenandoahWorkerSession_dtor this s.
Proof. split; reflexivity. Qed.

(** ** The allocation trace guard *)

Lemma alloc_trace_ctor_runs (words_size alloc_type : Z) (s : State) :
  ShenandoahAllocTrace_ctor words_size alloc_type s =
    Ok (if ShenandoahAllocationTrace
        then mkAllocTrace (elapsedTime s) words_size alloc_type
        else mkAllocTrace 0%float 0 0, s).
Proof.
  unfold ShenandoahAllocTrace_ctor. destruct ShenandoahAllocationTrace; reflexivity.
Qed.

Lemma alloc_trace_dtor_enabled
    (this : ShenandoahAllocTrace) (s : State) (l : list AllocLatency) :
  ShenandoahAllocationTrace = true ->
  alloc_tracker s = Some l ->
  let us := duration_us (_start this) (elapsedTime s) in
  let s1 :=
    with_alloc_tracker (Some (l ++ [mkLatency (_size this) (_alloc_type this) us])) s in
  ShenandoahAllocTrace_dtor this s =
    Ok (tt,
        if (double_of_intx ShenandoahAllocationStallThreshold <? us)%float
        then with_warnings
               (warnings s ++ [Allocation_stall us ShenandoahAllocationStallThreshold]) s1
        else s1).
Proof.
  intros Ht Hl us s1.
  unfold ShenandoahAllocTrace_dtor. rewrite Ht.
  unfold bind, get. rewrite Hl, assert_holds.
  unfold record_alloc_latency. rewrite Hl.
  fold (duration_us (_start this) (elapsedTime s)). fold us. fold s1.
  destruct (_ <? us)%float; reflexivity.
Qed.

(** C4. With tracing enabled the tracker receives, at destruction, exactly
    one record: the size and type given at construction and the measured
    microseconds; its earlier records are untouched.  With tracing disabled
    the constructor zeroes the three fields and the destructor leaves the
    whole state, the tracker included, as it was.  The constructor itself
    never changes the state. *)
Theorem alloc_trace_tracker_records
    (words_size alloc_type : Z) (s_ctor s_dtor : State) :
  exists guard : ShenandoahAllocTrace,
    ShenandoahAllocTrace_ctor words_size alloc_type s_ctor = Ok (guard, s_ctor)
    /\ (ShenandoahAllocationTrace = true ->
        forall l : list AllocLatency,
          alloc_tracker s_dtor = Some l ->
          exists s',
            ShenandoahAllocTrace_dtor guard s_dtor = Ok (tt, s')
            /\ alloc_tracker s' =
                 Some (l ++ [mkLatency words_size alloc_type
                               (duration_us (elapsedTime s_ctor) (elapsedTime s_dtor))]))
    /\ (ShenandoahAllocationTrace = false ->
        guard = mkAllocTrace 0%float 0 0
        /\ ShenandoahAllocTrace_dtor guard s_dtor = Ok (tt, s_dtor)).
Proof.
  eexists. split; [apply alloc_trace_ctor_runs | split].
  - intros Ht l Hl. rewrite Ht.
    rewrite (alloc_trace_dtor_enabled _ s_dtor l Ht Hl). cbn [_start _size _alloc_type].
    eexists. split; [reflexivity | ].
    destruct (_ <? _)%float; reflexivity.
  - intros Ht. rewrite Ht. split; [reflexivity | ].
    unfold ShenandoahAllocTrace_dtor. rewrite Ht. reflexivity.
Qed.

(** C5. With tracing enabled (and a tracker in place), the destructor logs
    one stall warning when the measured microseconds are strictly greater
    than [ShenandoahAllocationStallThreshold], and none otherwise; the
    warning carries the measured duration and the threshold. *)
Theorem alloc_trace_stall_warning
    (words_size alloc_type : Z) (s_ctor s_dtor : State) (l : list AllocLatency) :
  ShenandoahAllocationTrace = true ->
  alloc_tracker s_dtor = Some l ->
  exists guard s',
    ShenandoahAllocTrace_ctor words_size alloc_type s_ctor = Ok (guard, s_ctor)
    /\ ShenandoahAllocTrace_dtor guard s_dtor = Ok (tt, s')
    /\ warnings s' =
         (warnings s_dtor ++
          if (double_of_intx ShenandoahAllocationStallThreshold
              <? duration_us (elapsedTime s_ctor) (elapsedTime s_dtor))%float
          then [Allocation_stall
                  (duration_us (elapsedTime s_ctor) (elapsedTime s_dtor))
                  ShenandoahAllocationStallThreshold]
          else [])%list.
Proof.
  intros Ht Hl. eexists; eexists.
  split; [apply alloc_trace_ctor_runs | ].
  rewrite Ht. rewrite (alloc_trace_dtor_enabled _ s_dtor l Ht Hl).
  cbn [_start _size _alloc_type].
  split; [reflexivity | ].
  destruct (_ <? _)%float; cbn; [reflexivity | now rewrite app_nil_r].
Qed.

(** ** Blocks of guards: the record of calls *)

Lemma brackets_app (t1 t2 : list Call) :
  forall stack,
    brackets (t1 ++ t2) stack =
      match brackets t1 stack with
      | Some stack' => brackets t2 stack'
      | None => None
      end.
Proof.
  induction t1 as [ | c t1 IH ]; intros stack; cbn [app brackets].
  - reflexivity.
  - destruct (step_bracket c stack); [apply IH | reflexivity].
Qed.

Lemma pause_starts_app (t1 t2 : list Call) :
  pause_starts (t1 ++ t2) = (pause_starts t1 + pause_starts t2)%nat.
Proof. unfold pause_starts. now rewrite filter_app, length_app. Qed.

Lemma pause_ends_app (t1 t2 : list Call) :
  pause_ends (t1 ++ t2) = (pause_ends t1 + pause_ends t2)%nat.
Proof. unfold pause_ends. now rewrite filter_app, length_app. Qed.

Lemma untouched_refl (s : State) : untouched s s.
Proof. unfold untouched. auto 10. Qed.

Lemma untouched_trans (s1 s2 s3 : State) :
  untouched s1 s2 -> untouched s2 s3 -> untouched s1 s3.
Proof.
  unfold untouched.
  intros (A1 & A2 & A3 & A4 & A5 & A6) (B1 & B2 & B3 & B4 & B5 & B6).
  repeat split; congruence.
Qed.

Lemma thread_ok_untouched (s s' : State) :
  untouched s s' ->
  ASSERT = false \/ phase_thread s = true ->
  ASSERT = false \/ phase_thread s' = true.
Proof.
  intros (_ & _ & _ & _ & T & _) H. unfold phase_thread in *. now rewrite T.
Qed.

(** Every block runs to its end; the calls it adds are well bracketed, with
    as many pause starts as pause ends, and it touches nothing else but the
    clock. *)
Lemma exec_trace (w : work) :
  forall s : State,
    ASSERT = false \/ phase_thread s = true ->
    exists e s' t,
      exec w s = Ok (e, s')
      /\ calls s' = calls s ++ t
      /\ (forall stack, brackets t stack = Some stack)
      /\ pause_starts t = pause_ends t
      /\ untouched s s'.
Proof.
  induction w as [ | w1 IH1 w2 IH2 | now tk | | p body IH | type body IH ];
    intros s Hthr; cbn [exec].
  - exists Normal, s, []. rewrite app_nil_r.
    split; [reflexivity | ]. split; [reflexivity | ].
    split; [reflexivity | ]. split; [reflexivity | apply untouched_refl].
  - destruct (IH1 s Hthr) as (e1 & s1 & t1 & E1 & C1 & B1 & N1 & U1).
    unfold bind. rewrite E1. destruct e1.
    + destruct (IH2 s1 (thread_ok_untouched s s1 U1 Hthr))
        as (e2 & s2 & t2 & E2 & C2 & B2 & N2 & U2).
      exists e2, s2, (t1 ++ t2).
      split; [exact E2 | ].
      split; [rewrite C2, C1, app_assoc; reflexivity | ].
      split; [intros stack; rewrite brackets_app, B1; apply B2 | ].
      split; [rewrite pause_starts_app, pause_ends_app; congruence | ].
      exact (untouched_trans s s1 s2 U1 U2).
    + exists Unwinding, s1, t1. auto.
  - eexists; eexists; exists []. split; [reflexivity | ].
    cbn. rewrite app_nil_r.
    split; [reflexivity | ]. split; [reflexivity | ].
    split; [reflexivity | unfold untouched; cbn; auto 10].
  - exists Unwinding, s, []. rewrite app_nil_r.
    split; [reflexivity | ]. split; [reflexivity | ].
    split; [reflexivity | ]. split; [reflexivity | apply untouched_refl].
  - unfold bind. rewrite (phase_ctor_runs p s Hthr).
    match goal with |- context [exec body ?s1] => set (s1' := s1) end.
    assert (Hthr1 : ASSERT = false \/ phase_thread s1' = true) by exact Hthr.
    destruct (IH s1' Hthr1) as (e & s2 & t & E & C & B & N & U).
    rewrite E, phase_dtor_runs.
    eexists; eexists;
      exists ([phase_timings_record_phase_start p] ++ t
              ++ [phase_timings_record_phase_end p]).
    split; [reflexivity | ].
    destruct U as (U1' & U2 & U3 & U4 & U5 & U6).
    split; [cbn; rewrite C; cbn; rewrite <- !app_assoc; reflexivity | ].
    split.
    { intros stack. cbn [app brackets step_bracket].
      rewrite brackets_app, B. cbn. now rewrite Z.eqb_refl. }
    split.
    { rewrite pause_starts_app, pause_ends_app, pause_starts_app, pause_ends_app.
      cbn. lia. }
    unfold untouched. cbn. auto 10.
  - unfold bind.
    assert (Ec : ShenandoahGCPauseMark_ctor type s =
                   Ok (mkPauseMark type
                         (initialize true (gc_cause s) true true false false false
                                     true true true),
                       with_calls (calls s ++ [timer_register_gc_phase_start "Shenandoah" (ticks s);
                                               heuristics_record_gc_start]) s)).
    { run. cbn. rewrite <- app_assoc. reflexivity. }
    rewrite Ec.
    match goal with |- context [exec body ?s1] => set (s1' := s1) end.
    assert (Hthr1 : ASSERT = false \/ phase_thread s1' = true) by exact Hthr.
    destruct (IH s1' Hthr1) as (e & s2 & t & E & C & B & N & U).
    rewrite E.
    assert (Ed : forall mark, ShenandoahGCPauseMark_dtor mark s2 =
                   Ok (tt, with_calls (calls s2 ++ [timer_register_gc_phase_end (ticks s2);
                                                    heuristics_record_gc_end]) s2)).
    { intros mark. run. cbn. rewrite <- app_assoc. reflexivity. }
    rewrite Ed.
    eexists; eexists;
      exists ([timer_register_gc_phase_start "Shenandoah" (ticks s);
               heuristics_record_gc_start] ++ t
              ++ [timer_register_gc_phase_end (ticks s2); heuristics_record_gc_end]).
    split; [reflexivity | ].
    destruct U as (U1' & U2 & U3 & U4 & U5 & U6).
    split; [cbn; rewrite C; cbn; rewrite <- !app_assoc; reflexivity | ].
    split.
    { intros stack. cbn [app brackets step_bracket].
      rewrite brackets_app, B. reflexivity. }
    split.
    { rewrite pause_starts_app, pause_ends_app, pause_starts_app, pause_ends_app.
      cbn. lia. }
    unfold untouched. cbn. auto 10.
Qed.

(** X1. The timing calls of a block of guards are well bracketed: each
    [record_phase_end] closes the most recent open [record_phase_start] and
    names the same phase, each pause bracket of the timer is closed inside
    the brackets that enclose it, and the heuristics see as many pause ends
    as pause starts.  This holds also when the block is left early. *)
Theorem block_calls_well_bracketed (w : work) (s : State) :
  ASSERT = false \/ phase_thread s = true ->
  exists e s' t,
    exec w s = Ok (e, s')
    /\ calls s' = calls s ++ t
    /\ (forall stack, brackets t stack = Some stack)
    /\ pause_starts t = pause_ends t.
Proof.
  intros Hthr.
  destruct (exec_trace w s Hthr) as (e & s' & t & E & C & B & N & _).
  exists e, s', t. auto.
Qed.

(** X2. A block of phase and pause guards writes nothing but the record of
    calls (and the registry, which it restores): the cause, the cycle timer,
    the allocation tracker, the calling thread with its worker id, and the
    warnings are as before. *)
Theorem block_leaves_rest_untouched (w : work) (s : State) :
  ASSERT = false \/ phase_thread s = true ->
  exists e s',
    exec w s = Ok (e, s')
    /\ gc_cause s' = gc_cause s
    /\ gc_timer s' = gc_timer s
    /\ alloc_tracker s' = alloc_tracker s
    /\ thread s' = thread s
    /\ warnings s' = warnings s.
Proof.
  intros Hthr.
  destruct (exec_trace w s Hthr)
    as (e & s' & t & E & _ & _ & _ & (_ & U2 & U3 & U4 & U5 & U6)).
  exists e, s'. auto 10.
Qed.


(** X4. Inside a phase guard the root-work query answers for the guard's
    phase, also after any block of further guards has come and gone. *)
Theorem root_work_query_inside_guard (p : Z) (body : work) (s : State) :
  ASSERT = false \/ phase_thread s = true ->
  exists guard s1 e s2 b,
    ShenandoahGCPhase_ctor p s = Ok (guard, s1)
    /\ exec body s1 = Ok (e, s2)
    /\ is_root_work_phase s2 = Ok (b, s2)
    /\ (b = true <-> In p root_work_phases).
Proof.
  intros Hthr.
  pose proof (phase_ctor_runs p s Hthr) as Ec.
  match type of Ec with _ = Ok (?g, ?s1) => set (guard := g) in *; set (s1' := s1) in * end.
  assert (Hthr1 : ASSERT = false \/ phase_thread s1' = true) by exact Hthr.
  destruct (exec_balanced body s1' Hthr1) as (e & s2 & E & P & _).
  exists guard, s1', e, s2. eexists.
  split; [exact Ec | ].
  split; [exact E | ].
  split; [apply is_root_work_phase_runs | ].
  rewrite P. apply root_work_switch.
Qed.

(** X5. A root-work phase is a valid phase: when the query answers [true]
    the registry holds a value in [0, _num_phases), so a debug-checked build
    refuses to open a session there. *)
Theorem root_work_phase_is_valid (s : State) :
  phases_declared = true ->
  is_root_work_phase s = Ok (true, s) ->
  is_valid_phase (_current_phase s) = true
  /\ 0 <= _current_phase s < _num_phases
  /\ (ASSERT = true ->
      forall c, ShenandoahGCSession_ctor c s = Fatal "No current GC phase").
Proof.
  intros Hdecl Hq.
  rewrite is_root_work_phase_runs in Hq.
  assert (Hin : In (_current_phase s) root_work_phases).
  { apply root_work_switch. injection Hq as Hq. exact Hq. }
  unfold phases_declared in Hdecl.
  apply andb_true_iff in Hdecl. destruct Hdecl as [Hall _].
  rewrite forallb_forall in Hall. pose proof (Hall _ Hin) as Hv.
  split; [exact Hv | ]. split.
  - unfold is_valid_phase in Hv. apply andb_true_iff in Hv.
    destruct Hv as [H0 H1]. apply Z.geb_le in H0. apply Z.ltb_lt in H1. lia.
  - intros Hd c. apply (session_fatal_when_phase_active c
      (mkSession (initialize false c true true true true true true true true)) s Hd Hv).
Qed.

(** X15. Why the guards must nest: when the outer of two phase guards is
    destroyed before the inner one, the registry ends up holding the outer
    guard's phase although no guard is left. *)
Theorem interleaved_guards_do_not_restore (P1 P2 : Z) (s : State) :
  ASSERT = false \/ phase_thread s = true ->
  exists g1 s1 g2 s2 s3 s4,
    ShenandoahGCPhase_ctor P1 s = Ok (g1, s1)
    /\ ShenandoahGCPhase_ctor P2 s1 = Ok (g2, s2)
    /\ ShenandoahGCPhase_dtor g1 s2 = Ok (tt, s3)
    /\ _current_phase s3 = _current_phase s
    /\ ShenandoahGCPhase_dtor g2 s3 = Ok (tt, s4)
    /\ _current_phase s4 = P1.
Proof.
  intros Hthr.
  pose proof (phase_ctor_runs P1 s Hthr) as E1.
  match type of E1 with _ = Ok (?g, ?s1) => set (g1 := g) in *; set (s1' := s1) in * end.
  assert (Hthr1 : ASSERT = false \/ phase_thread s1' = true) by exact Hthr.
  pose proof (phase_ctor_runs P2 s1' Hthr1) as E2.
  match type of E2 with _ = Ok (?g, ?s2) => set (g2 := g) in *; set (s2' := s2) in * end.
  exists g1, s1', g2, s2'. eexists. eexists.
  split; [exact E1 | ].
  split; [exact E2 | ].
  split; [apply phase_dtor_runs | ].
  split; [reflexivity | ].
  split; [apply phase_dtor_runs | reflexivity].
Qed.

(** ** Worker sessions, one task after another *)

Lemma with_thread_same (s : State) :
  with_thread (mkThread (is_VM_thread (thread s))
                        (is_ConcurrentGC_thread (thread s))
                        (worker_id (thread s))) s = s.
Proof. destruct s as [? ? ? ? [? ? ?] ? ? ? ?]. reflexivity. Qed.

Lemma worker_session_dtor_flavour (f : flavour) (this : ShenandoahWorkerSession) :
  forall s, worker_session_dtor f this s = ShenandoahWorkerSession_dtor this s.
Proof. destruct f; reflexivity. Qed.

Lemma worker_task_debug (f : flavour) (id : Z) (s : State) :
  ASSERT = true ->
  worker_id (thread s) = INVALID_WORKER_ID ->
  exists s1,
    ShenandoahWorkerSession_ctor id s = Ok (mkWorkerSession id, s1)
    /\ worker_id (thread s1) = id
    /\ worker_session_dtor f (mkWorkerSession id) s1 =
         if id =? INVALID_WORKER_ID then Fatal "Must be set" else Ok (tt, s).
Proof.
  intros Hd Hslot. eexists. split; [ | split ].
  - unfold ShenandoahWorkerSession_ctor, bind, get.
    rewrite Hslot, Z.eqb_refl, assert_holds. reflexivity.
  - reflexivity.
  - rewrite worker_session_dtor_flavour.
    run. unfold assert. cbn. rewrite Hd.
    destruct (id =? INVALID_WORKER_ID) eqn:Eid; cbn; rewrite ?Eid; cbn;
      [reflexivity | ].
    rewrite <- Hslot. f_equal. f_equal.
    destruct s as [? ? ? ? [? ? ?] ? ? ? ?]. reflexivity.
Qed.

(** X6. In a debug-checked build a worker session is a round trip: on a
    thread whose slot holds the sentinel, any number of tasks, of any
    flavour and with valid ids, run one after another and leave the state
    exactly as it was, the slot holding the sentinel again. *)
Theorem worker_tasks_round_trip (tasks : list (flavour * Z)) (s : State) :
  ASSERT = true ->
  worker_id (thread s) = INVALID_WORKER_ID ->
  Forall (fun task => snd task <> INVALID_WORKER_ID) tasks ->
  worker_tasks tasks s = Ok (tt, s).
Proof.
  intros Hd Hslot Hall.
  induction Hall as [ | [f id] rest Hid _ IH ]; cbn [worker_tasks].
  - reflexivity.
  - destruct (worker_task_debug f id s Hd Hslot) as (s1 & Ec & _ & Edt).
    cbn [snd] in Hid. apply Z.eqb_neq in Hid. rewrite Hid in Edt.
    unfold bind. rewrite Ec, Edt. exact IH.
Qed.

(** X7. The sentinel is not a usable id: in a debug-checked build a session
    constructed with [INVALID_WORKER_ID] passes its constructor and stops
    the VM in its destructor with "Must be set". *)
Theorem worker_task_with_sentinel_id
    (f : flavour) (rest : list (flavour * Z)) (s : State) :
  ASSERT = true ->
  worker_id (thread s) = INVALID_WORKER_ID ->
  (exists s1,
      ShenandoahWorkerSession_ctor INVALID_WORKER_ID s
        = Ok (mkWorkerSession INVALID_WORKER_ID, s1))
  /\ worker_tasks ((f, INVALID_WORKER_ID) :: rest) s = Fatal "Must be set".
Proof.
  intros Hd Hslot.
  destruct (worker_task_debug f INVALID_WORKER_ID s Hd Hslot) as (s1 & Ec & _ & Edt).
  rewrite Z.eqb_refl in Edt. split.
  - exists s1. exact Ec.
  - cbn [worker_tasks]. unfold bind. rewrite Ec, Edt. reflexivity.
Qed.

Lemma last_cons {A : Type} (a d : A) (l : list A) : last (a :: l) d = last l a.
Proof.
  revert a d. induction l as [ | b l IH ]; intros a d; [reflexivity | ].
  change (last (a :: b :: l) d) with (last (b :: l) d).
  rewrite (IH b d), (IH b a). reflexivity.
Qed.

(** X8. In a product build nothing is checked and nothing is reset: any
    list of tasks runs to its end, whatever the slot held, and afterwards
    the slot holds the id of the last task (its old value when there was
    none); the rest of the state is as before. *)
Theorem worker_tasks_product (tasks : list (flavour * Z)) (s : State) :
  ASSERT = false ->
  worker_tasks tasks s =
    Ok (tt, with_thread (mkThread (is_VM_thread (thread s))
                                  (is_ConcurrentGC_thread (thread s))
                                  (last_id tasks (worker_id (thread s)))) s).
Proof.
  intros Hd. revert s.
  induction tasks as [ | [f id] rest IH ]; intros s; cbn [worker_tasks].
  - unfold last_id. cbn. rewrite with_thread_same. reflexivity.
  - unfold bind.
    assert (Ec : ShenandoahWorkerSession_ctor id s =
                   Ok (mkWorkerSession id,
                       with_thread (mkThread (is_VM_thread (thread s))
                                             (is_ConcurrentGC_thread (thread s)) id) s)).
    { unfold ShenandoahWorkerSession_ctor, bind, get.
      rewrite (assert_product _ _ s Hd). reflexivity. }
    rewrite Ec, worker_session_dtor_flavour.
    unfold ShenandoahWorkerSession_dtor at 1. rewrite Hd. unfold ret at 1.
    rewrite IH. unfold last_id. cbn [map snd]. rewrite last_cons. reflexivity.
Qed.

(** ** Cycles, one session after another *)

Lemma in_session_runs (c : Z) (body : work) (s : State) :
  is_valid_phase (_current_phase s) = false ->
  ASSERT = false \/ phase_thread s = true ->
  exists e s',
    in_session c body s = Ok (e, s')
    /\ _current_phase s' = _current_phase s
    /\ thread s' = thread s
    /\ gc_cause s' = _no_gc.
Proof.
  intros Hv Hthr.
  destruct (session_ctor_runs c s (or_intror Hv)) as (s1 & Ec & P1 & T1 & _).
  assert (Hthr1 : ASSERT = false \/ phase_thread s1 = true)
    by (unfold phase_thread in *; rewrite T1; exact Hthr).
  destruct (exec_balanced body s1 Hthr1) as (e & s2 & E & P2 & T2 & _).
  assert (Hv2 : is_valid_phase (_current_phase s2) = false) by congruence.
  destruct (session_dtor_runs
              (mkSession (initialize false c true true true true true true true true))
              s2 (or_intror Hv2)) as (s0 & Ed & P0 & T0).
  exists e. eexists. split.
  - unfold in_session, bind. rewrite Ec, E, Ed. reflexivity.
  - cbn. repeat split; congruence.
Qed.

(** X9. A session re-establishes what the next one needs: from a state
    with no phase active, any number of cycles run one after another, each
    with any block of guards inside, complete; the registry and the thread
    are as before, and after at least one cycle the cause is [_no_gc]. *)
Theorem cycles_run (l : list (Z * work)) (s : State) :
  is_valid_phase (_current_phase s) = false ->
  ASSERT = false \/ phase_thread s = true ->
  exists s',
    cycles l s = Ok (tt, s')
    /\ _current_phase s' = _current_phase s
    /\ thread s' = thread s
    /\ (l <> [] -> gc_cause s' = _no_gc).
Proof.
  revert s. induction l as [ | [c body] rest IH ]; intros s Hv Hthr; cbn [cycles].
  - exists s. split; [reflexivity | ]. split; [reflexivity | ].
    split; [reflexivity | congruence].
  - destruct (in_session_runs c body s Hv Hthr) as (e & s1 & E & P1 & T1 & C1).
    assert (Hv1 : is_valid_phase (_current_phase s1) = false) by congruence.
    assert (Hthr1 : ASSERT = false \/ phase_thread s1 = true)
      by (unfold phase_thread in *; rewrite T1; exact Hthr).
    destruct (IH s1 Hv1 Hthr1) as (s' & E' & P' & T' & C').
    exists s'. unfold bind. rewrite E.
    split; [exact E' | ]. split; [congruence | ]. split; [congruence | ].
    intros _. destruct rest as [ | x rest' ].
    + cbn in E'. injection E' as <-. exact C1.
    + apply C'. discriminate.
Qed.

(** ** What a session tells the tracer *)

Lemma session_ctor_calls (c : Z) (s : State) :
  ASSERT = false \/ is_valid_phase (_current_phase s) = false ->
  exists s1,
    ShenandoahGCSession_ctor c s =
      Ok (mkSession (initialize false c true true true true true true true true), s1)
    /\ calls s1 = calls s ++ [tracer_report_gc_start c (ticks s);
                               heap_trace_heap_BeforeGC;
                               policy_record_cycle_start;
                               heuristics_record_cycle_start]
    /\ gc_timer s1 = mkTimer (ticks s) (gc_end (gc_timer s))
    /\ gc_cause s1 = c
    /\ _current_phase s1 = _current_phase s
    /\ thread s1 = thread s.
Proof.
  intros H.
  assert (Ha : ASSERT = false \/ negb (is_valid_phase (_current_phase s)) = true)
    by (destruct H as [H | H]; [left; exact H | right; rewrite H; reflexivity]).
  unfold ShenandoahGCSession_ctor, bind, current_phase, get.
  rewrite (assert_unless_debug _ _ s Ha).
  eexists. split; [run; reflexivity | ].
  cbn. rewrite <- !app_assoc. cbn. auto 10.
Qed.

Lemma session_dtor_calls (this : ShenandoahGCSession) (s : State) :
  ASSERT = false \/ is_valid_phase (_current_phase s) = false ->
  exists s',
    ShenandoahGCSession_dtor this s = Ok (tt, s')
    /\ calls s' = calls s ++ [heuristics_record_cycle_end;
                               tracer_report_gc_end (gc_end (gc_timer s))]
    /\ gc_timer s' = mkTimer (gc_start (gc_timer s)) (ticks s)
    /\ ticks s' = ticks s
    /\ gc_cause s' = _no_gc.
Proof.
  intros H.
  assert (Ha : ASSERT = false \/ negb (is_valid_phase (_current_phase s)) = true)
    by (destruct H as [H | H]; [left; exact H | right; rewrite H; reflexivity]).
  run.
  match goal with |- context [assert ?p ?m ?s1] =>
    change p with (negb (is_valid_phase (_current_phase s)));
    rewrite (assert_unless_debug _ m s1 Ha)
  end.
  eexists. split; [reflexivity | ].
  cbn. rewrite <- !app_assoc. cbn. auto 10.
Qed.

(** X10. What a whole session tells the tracer and the timer.  The start
    reported to the tracer is the time the timer registered at construction.
    The end reported to the tracer is read before [register_gc_end] runs: it
    is the end time the timer held when the session was opened, not the time
    of this destruction, which the timer stores only afterwards.  Between
    the four start notifications and the two end notifications lie the
    well-bracketed calls of the bracketed work. *)
Theorem session_reports_times (c : Z) (body : work) (s : State) :
  is_valid_phase (_current_phase s) = false ->
  ASSERT = false \/ phase_thread s = true ->
  exists e s' t,
    in_session c body s = Ok (e, s')
    /\ calls s' =
         calls s
         ++ [tracer_report_gc_start c (ticks s); heap_trace_heap_BeforeGC;
             policy_record_cycle_start; heuristics_record_cycle_start]
         ++ t
         ++ [heuristics_record_cycle_end;
             tracer_report_gc_end (gc_end (gc_timer s))]
    /\ (forall stack, brackets t stack = Some stack)
    /\ gc_timer s' = mkTimer (ticks s) (ticks s').
Proof.
  intros Hv Hthr.
  destruct (session_ctor_calls c s (or_intror Hv))
    as (s1 & Ec & C1 & G1 & _ & P1 & T1).
  assert (Hthr1 : ASSERT = false \/ phase_thread s1 = true)
    by (unfold phase_thread in *; rewrite T1; exact Hthr).
  destruct (exec_trace body s1 Hthr1)
    as (e & s2 & t & E & C2 & B & _ & (P2 & _ & G2 & _)).
  assert (Hv2 : is_valid_phase (_current_phase s2) = false) by congruence.
  destruct (session_dtor_calls
              (mkSession (initialize false c true true true true true true true true))
              s2 (or_intror Hv2)) as (s' & Ed & C3 & G3 & K3 & _).
  exists e, s', t.
  split; [unfold in_session, bind; rewrite Ec, E, Ed; reflexivity | ].
  split.
  - rewrite C3, C2, C1, G2, G1. cbn [gc_end]. rewrite <- !app_assoc. reflexivity.
  - split; [exact B | ].
    rewrite G3, G2, G1, K3. reflexivity.
Qed.

(** X14. A pause inside a session reports the session's cause: whatever
    block of guards ran in between, the pause record is initialized with the
    cause the session set, as a full collection, while the session's own
    record is initialized with the same cause as a collection that is not
    full. *)
Theorem pause_record_carries_session_cause
    (c type : Z) (body : work) (s s1 : State) (session : ShenandoahGCSession) :
  ShenandoahGCSession_ctor c s = Ok (session, s1) ->
  ASSERT = false \/ phase_thread s = true ->
  exists e s2 mark s3,
    exec body s1 = Ok (e, s2)
    /\ ShenandoahGCPauseMark_ctor type s2 = Ok (mark, s3)
    /\ cause (_trace_pause mark) = c
    /\ fullGC (_trace_pause mark) = true
    /\ cause (_trace_cycle session) = c
    /\ fullGC (_trace_cycle session) = false.
Proof.
  intros Ec Hthr.
  destruct (session_ctor_result c s s1 session Ec) as (Hv & _ & T1 & C1).
  destruct (session_ctor_calls c s Hv) as (s1' & Ec' & _).
  rewrite Ec in Ec'. injection Ec' as -> _.
  assert (Hthr1 : ASSERT = false \/ phase_thread s1 = true)
    by (unfold phase_thread in *; rewrite T1; exact Hthr).
  destruct (exec_balanced body s1 Hthr1) as (e & s2 & E & _ & _ & C2).
  exists e, s2. eexists; eexists.
  split; [exact E | ].
  split; [run; reflexivity | ].
  cbn. split; [congruence | auto].
Qed.

(** ** Allocation requests, one after another *)

(** X11. With tracing enabled and no tracker in the heap, the destructor
    stops the VM with "Must be" in a debug-checked build; in a product build
    it calls through the null pointer. *)
Theorem alloc_trace_without_tracker (this : ShenandoahAllocTrace) (s : State) :
  ShenandoahAllocationTrace = true ->
  alloc_tracker s = None ->
  (ASSERT = true -> ShenandoahAllocTrace_dtor this s = Fatal "Must be")
  /\ (ASSERT = false -> ShenandoahAllocTrace_dtor this s = Undefined).
Proof.
  intros Ht Hn.
  split; intros Hd;
    unfold ShenandoahAllocTrace_dtor, bind, get, assert, record_alloc_latency;
    rewrite Ht; cbv beta iota; rewrite Hd; cbv beta iota; rewrite ?Hn; reflexivity.
Qed.

(** X12. With tracing enabled the tracker receives one record per request,
    in the order of the requests, and the log one warning per request whose
    duration exceeds the threshold, in the same order; no collaborator is
    called and registry, cause and thread are as before. *)
Theorem allocations_traced (l : list allocation) :
  forall (s : State) (l0 : list AllocLatency),
    ShenandoahAllocationTrace = true ->
    alloc_tracker s = Some l0 ->
    exists s',
      allocations l s = Ok (tt, s')
      /\ alloc_tracker s' = Some (l0 ++ map latency_of l)
      /\ warnings s' = warnings s ++ map stall_of (filter stalled l)
      /\ calls s' = calls s
      /\ _current_phase s' = _current_phase s
      /\ gc_cause s' = gc_cause s
      /\ thread s' = thread s.
Proof.
  induction l as [ | a rest IH ]; intros s l0 Ht Hl; cbn [allocations].
  - exists s. cbn. rewrite !app_nil_r. auto 10.
  - unfold bind at 1. unfold set_elapsedTime at 1, modify at 1.
    unfold bind at 1. rewrite alloc_trace_ctor_runs, Ht.
    unfold bind at 1. unfold set_elapsedTime at 1, modify at 1.
    unfold bind at 1.
    match goal with |- context [ShenandoahAllocTrace_dtor ?g ?s1] =>
      rewrite (alloc_trace_dtor_enabled g s1 l0 Ht Hl)
    end.
    cbn [_start _size _alloc_type elapsedTime with_clock].
    fold (latency_of a). fold (stalled a). fold (stall_of a).
    match goal with |- context [allocations rest ?s2] =>
      destruct (IH s2 (l0 ++ [latency_of a]) Ht) as (s' & E & A & W & C & P & G & T);
        [ destruct (stalled a); reflexivity | ]
    end.
    exists s'. split; [exact E | ].
    split; [rewrite A, <- app_assoc; reflexivity | ].
    cbn [filter map].
    destruct (stalled a); cbn in *.
    + rewrite W, <- app_assoc. auto 10.
    + rewrite W. auto 10.
Qed.

(** X13. With tracing disabled the tracker is never looked at: any list of
    requests runs to its end even when the heap has no tracker, and tracker,
    log and record of calls are as before. *)
Theorem allocations_untraced (l : list allocation) :
  forall s : State,
    ShenandoahAllocationTrace = false ->
    exists s',
      allocations l s = Ok (tt, s')
      /\ alloc_tracker s' = alloc_tracker s
      /\ warnings s' = warnings s
      /\ calls s' = calls s.
Proof.
  induction l as [ | a rest IH ]; intros s Ht; cbn [allocations].
  - exists s. auto.
  - unfold bind at 1. unfold set_elapsedTime at 1, modify at 1.
    unfold bind at 1. rewrite alloc_trace_ctor_runs, Ht.
    unfold bind at 1. unfold set_elapsedTime at 1, modify at 1.
    unfold bind at 1. unfold ShenandoahAllocTrace_dtor at 1. rewrite Ht.
    unfold ret at 1.
    match goal with |- context [allocations rest ?s2] =>
      destruct (IH s2 Ht) as (s' & E & A & W & C)
    end.
    exists s'. split; [exact E | ]. cbn in A, W, C. auto.
Qed.

(** X16. A product build checks nothing at the session boundaries: a
    session opened while a phase is active, from any thread, runs to its
    end around any block of guards, resets the cause and leaves the registry
    holding the phase that was active. *)
Theorem session_unchecked_in_product (c : Z) (body : work) (s : State) :
  ASSERT = false ->
  exists e s',
    in_session c body s = Ok (e, s')
    /\ gc_cause s' = _no_gc
    /\ _current_phase s' = _current_phase s.
Proof.
  intros Hd.
  destruct (session_ctor_runs c s (or_introl Hd)) as (s1 & Ec & P1 & _).
  destruct (exec_balanced body s1 (or_introl Hd)) as (e & s2 & E & P2 & _).
  destruct (session_dtor_runs
              (mkSession (initialize false c true true true true true true true true))
              s2 (or_introl Hd)) as (s0 & Ed & P0 & _).
  exists e. eexists. split.
  - unfold in_session, bind. rewrite Ec, E, Ed. reflexivity.
  - cbn. split; [reflexivity | congruence].
Qed.

End Properties.

(** * Runs on concrete configurations *)

Lemma phase_guard_restores_parent_witness :
  @phase_thread (sample_state 30 VM_thread 0%float) = true
  /\ exists e s',
       @exec debug_vm (InPhase 2 (Seq (InPhase 5 Leave) Skip))
             (sample_state 30 VM_thread 0%float) = Ok (e, s')
       /\ _current_phase s' = 30.
Proof.
  split; [reflexivity | ].
  destruct (@phase_guard_restores_parent debug_vm
              (sample_state 30 VM_thread 0%float) (or_intror eq_refl)) as [H _].
  destruct (H 2 (Seq (InPhase 5 Leave) Skip))
    as (guard & s1 & e & s2 & s3 & _ & _ & _ & _ & _ & Hcur & Hrun).
  exists e, s3. split; [exact Hrun | exact Hcur].
Defined.

Lemma session_guard_phase_assertions_witness :
  @ShenandoahGCSession_ctor debug_vm 3 (sample_state 5 VM_thread 0%float)
    = Fatal "No current GC phase"
  /\ (exists session s',
        @ShenandoahGCSession_ctor debug_vm 3 (sample_state 30 VM_thread 0%float)
          = Ok (session, s')).
Proof.
  split.
  - apply (@session_guard_phase_assertions debug_vm 3
             (mkSession (initialize false 3 true true true true true true true true))
             (sample_state 5 VM_thread 0%float) (sample_state 5 VM_thread 0%float));
      reflexivity.
  - apply (@session_guard_phase_assertions debug_vm 3
             (mkSession (initialize false 3 true true true true true true true true))
             (sample_state 30 VM_thread 0%float) (sample_state 30 VM_thread 0%float));
      reflexivity.
Defined.

Lemma session_dtor_resets_cause_witness :
  exists e s',
    @in_session debug_vm 3 (InPause 0 (InPhase 2 (Seq (InPhase 5 Leave) Skip)))
                (sample_state 30 VM_thread 0%float) = Ok (e, s')
    /\ e = Unwinding
    /\ gc_cause s' = 12.
Proof.
  destruct (@session_dtor_resets_cause debug_vm 3
              (InPause 0 (InPhase 2 (Seq (InPhase 5 Leave) Skip)))
              (sample_state 30 VM_thread 0%float) _ _ eq_refl (or_intror eq_refl))
    as [(e & s2 & s3 & _ & _ & Hcause & Hrun) _].
  exists e, s3. split; [exact Hrun | ]. split; [ | exact Hcause].
  cbv in Hrun. congruence.
Defined.

Lemma trace_records_initialization_witness :
  exists session s',
    @ShenandoahGCSession_ctor debug_vm 3 (sample_state 30 VM_thread 0%float)
      = Ok (session, s')
    /\ recordPreGCUsage (_trace_cycle session) = true
    /\ recordPeakUsage (_trace_cycle session) = true
    /\ recordPostGCUsage (_trace_cycle session) = true.
Proof.
  destruct (@trace_records_initialization debug_vm) as (_ & Hfields & Hruns).
  destruct (Hruns 3 (sample_state 30 VM_thread 0%float) eq_refl)
    as (session & s' & E).
  exists session, s'. split; [exact E | ].
  destruct (Hfields _ _ _ _ E) as (_ & Hpre & Hpeak & Hpost & _).
  split; [exact Hpre | split; [exact Hpeak | exact Hpost]].
Defined.

Lemma worker_session_ctor_contract_witness :
  @ShenandoahWorkerSession_ctor debug_vm 7 (sample_state 30 (worker_thread 3) 0%float)
    = Fatal "Already set"
  /\ @ShenandoahWorkerSession_ctor debug_vm 7
       (sample_state 30 (worker_thread 4294967295) 0%float)
     = Ok (mkWorkerSession 7, sample_state 30 (worker_thread 7) 0%float).
Proof.
  split.
  - apply (@worker_session_ctor_contract debug_vm 7
             (sample_state 30 (worker_thread 3) 0%float)).
    + reflexivity.
    + cbn. lia.
  - apply (@worker_session_ctor_contract debug_vm 7
             (sample_state 30 (worker_thread 4294967295) 0%float)).
    reflexivity.
Defined.

Lemma worker_session_dtor_by_build_witness :
  @ShenandoahWorkerSession_dtor debug_vm (mkWorkerSession 3)
     (sample_state 30 (worker_thread 3) 0%float)
    = Ok (tt, sample_state 30 (worker_thread 4294967295) 0%float)
  /\ @ShenandoahWorkerSession_dtor debug_vm (mkWorkerSession 3)
       (sample_state 30 (worker_thread 4294967295) 0%float)
     = Fatal "Must be set"
  /\ @ShenandoahWorkerSession_dtor product_vm (mkWorkerSession 3)
       (sample_state 30 (worker_thread 3) 0%float)
     = Ok (tt, sample_state 30 (worker_thread 3) 0%float).
Proof.
  split; [ | split ].
  - apply (@worker_session_dtor_by_build debug_vm (mkWorkerSession 3)
             (sample_state 30 (worker_thread 3) 0%float)).
    + reflexivity.
    + cbn. lia.
  - apply (@worker_session_dtor_by_build debug_vm (mkWorkerSession 3)
             (sample_state 30 (worker_thread 4294967295) 0%float));
      reflexivity.
  - apply (@worker_session_dtor_by_build product_vm (mkWorkerSession 3)
             (sample_state 30 (worker_thread 3) 0%float)).
    reflexivity.
Defined.

(** C3, as the specification has it, fails in a product build: the
    destructor of a worker session with id 3 completes and the slot still
    holds 3, not [INVALID_WORKER_ID]. *)
Lemma worker_session_dtor_product_keeps_id :
  exists s',
    @ShenandoahWorkerSession_dtor product_vm (mkWorkerSession 3)
       (sample_state 30 (worker_thread 3) 0%float) = Ok (tt, s')
    /\ worker_id (thread s') = 3
    /\ worker_id (thread s') <> @INVALID_WORKER_ID product_vm.
Proof.
  eexists. split; [reflexivity | ]. split; [reflexivity | ]. cbn. lia.
Qed.

Lemma alloc_trace_tracker_records_witness :
  (exists guard s',
     @ShenandoahAllocTrace_ctor debug_vm 64 1 (sample_state 30 VM_thread 0%float)
       = Ok (guard, sample_state 30 VM_thread 0%float)
     /\ @ShenandoahAllocTrace_dtor debug_vm guard
          (sample_state 30 VM_thread (seconds_of_us 150)) = Ok (tt, s')
     /\ alloc_tracker s' = Some [mkLatency 64 1 150%float])
  /\ (exists guard,
     @ShenandoahAllocTrace_ctor (sample_vm true false 100) 64 1
        (sample_state 30 VM_thread 0%float)
       = Ok (guard, sample_state 30 VM_thread 0%float)
     /\ guard = mkAllocTrace 0%float 0 0
     /\ @ShenandoahAllocTrace_dtor (sample_vm true false 100) guard
          (sample_state 30 VM_thread (seconds_of_us 150))
        = Ok (tt, sample_state 30 VM_thread (seconds_of_us 150))).
Proof.
  split.
  - destruct (@alloc_trace_tracker_records debug_vm 64 1
                (sample_state 30 VM_thread 0%float)
                (sample_state 30 VM_thread (seconds_of_us 150)))
      as (guard & Hc & Hon & _).
    destruct (Hon eq_refl [] eq_refl) as (s' & Hd & Ht).
    exists guard, s'. split; [exact Hc | split; [exact Hd | exact Ht]].
  - destruct (@alloc_trace_tracker_records (sample_vm true false 100) 64 1
                (sample_state 30 VM_thread 0%float)
                (sample_state 30 VM_thread (seconds_of_us 150)))
      as (guard & Hc & _ & Hoff).
    destruct (Hoff eq_refl) as (Hg & Hd).
    exists guard. split; [exact Hc | split; [exact Hg | exact Hd]].
Defined.

Lemma alloc_trace_stall_warning_witness :
  (exists guard s',
     @ShenandoahAllocTrace_ctor debug_vm 64 1 (sample_state 30 VM_thread 0%float)
       = Ok (guard, sample_state 30 VM_thread 0%float)
     /\ @ShenandoahAllocTrace_dtor debug_vm guard
          (sample_state 30 VM_thread (seconds_of_us 150)) = Ok (tt, s')
     /\ warnings s' = [Allocation_stall 150%float 100])
  /\ (exists guard s',
     @ShenandoahAllocTrace_ctor debug_vm 64 1 (sample_state 30 VM_thread 0%float)
       = Ok (guard, sample_state 30 VM_thread 0%float)
     /\ @ShenandoahAllocTrace_dtor debug_vm guard
          (sample_state 30 VM_thread (seconds_of_us 50)) = Ok (tt, s')
     /\ warnings s' = []).
Proof.
  split.
  - exact (@alloc_trace_stall_warning debug_vm 64 1
             (sample_state 30 VM_thread 0%float)
             (sample_state 30 VM_thread (seconds_of_us 150)) [] eq_refl eq_refl).
  - exact (@alloc_trace_stall_warning debug_vm 64 1
             (sample_state 30 VM_thread 0%float)
             (sample_state 30 VM_thread (seconds_of_us 50)) [] eq_refl eq_refl).
Defined.

Lemma no_phase_is_not_root_work_witness :
  @phases_declared debug_vm = true
  /\ @is_root_work_phase debug_vm (sample_state 30 VM_thread 0%float)
     = Ok (false, sample_state 30 VM_thread 0%float).
Proof.
  split; [reflexivity | ].
  destruct (@no_phase_is_not_root_work debug_vm eq_refl) as (_ & H & _).
  apply H. reflexivity.
Defined.

(** ** Runs of the further properties *)

Lemma block_calls_well_bracketed_witness :
  exists e s' t,
    @exec debug_vm sample_block idle_state = Ok (e, s')
    /\ calls s' = calls idle_state ++ t
    /\ (forall stack, brackets t stack = Some stack)
    /\ pause_starts t = pause_ends t.
Proof.
  exact (@block_calls_well_bracketed debug_vm sample_block idle_state
           (or_intror eq_refl)).
Defined.

Lemma block_leaves_rest_untouched_witness :
  exists e s',
    @exec debug_vm sample_block idle_state = Ok (e, s')
    /\ gc_cause s' = 12
    /\ gc_timer s' = mkTimer 0 0
    /\ alloc_tracker s' = Some []
    /\ thread s' = VM_thread
    /\ warnings s' = [].
Proof.
  exact (@block_leaves_rest_untouched debug_vm sample_block idle_state
           (or_intror eq_refl)).
Defined.


Lemma root_work_query_inside_guard_witness :
  exists guard s1 e s2 b,
    @ShenandoahGCPhase_ctor debug_vm 2 idle_state = Ok (guard, s1)
    /\ @exec debug_vm sample_block s1 = Ok (e, s2)
    /\ @is_root_work_phase debug_vm s2 = Ok (b, s2)
    /\ (b = true <-> In 2 (@root_work_phases debug_vm)).
Proof.
  exact (@root_work_query_inside_guard debug_vm 2 sample_block idle_state
           (or_intror eq_refl)).
Defined.

Lemma root_work_phase_is_valid_witness :
  @is_valid_phase debug_vm 5 = true
  /\ @ShenandoahGCSession_ctor debug_vm 3 (sample_state 5 VM_thread 0%float)
     = Fatal "No current GC phase".
Proof.
  destruct (@root_work_phase_is_valid debug_vm (sample_state 5 VM_thread 0%float)
              eq_refl eq_refl) as (Hv & _ & Hs).
  split; [exact Hv | exact (Hs eq_refl 3)].
Defined.

Lemma worker_tasks_round_trip_witness :
  @worker_tasks debug_vm [(Base, 3); (Concurrent, 4); (Parallel, 5)]
     (worker_state 4294967295)
    = Ok (tt, worker_state 4294967295).
Proof.
  apply (@worker_tasks_round_trip debug_vm).
  - reflexivity.
  - reflexivity.
  - repeat constructor; cbn; lia.
Defined.

Lemma worker_task_with_sentinel_id_witness :
  @worker_tasks debug_vm [(Parallel, 4294967295); (Base, 3)]
     (worker_state 4294967295)
    = Fatal "Must be set".
Proof.
  exact (proj2 (@worker_task_with_sentinel_id debug_vm Parallel [(Base, 3)]
                  (worker_state 4294967295) eq_refl eq_refl)).
Defined.

Lemma worker_tasks_product_witness :
  @worker_tasks product_vm [(Base, 3); (Concurrent, 4); (Parallel, 5)]
     (worker_state 9)
    = Ok (tt, worker_state 5).
Proof.
  exact (@worker_tasks_product product_vm [(Base, 3); (Concurrent, 4); (Parallel, 5)]
           (worker_state 9) eq_refl).
Defined.

Lemma cycles_run_witness :
  exists s',
    @cycles debug_vm [(3, sample_block); (4, Skip)] idle_state = Ok (tt, s')
    /\ _current_phase s' = 30
    /\ thread s' = VM_thread
    /\ gc_cause s' = 12.
Proof.
  destruct (@cycles_run debug_vm [(3, sample_block); (4, Skip)] idle_state
              eq_refl (or_intror eq_refl)) as (s' & E & P & T & C).
  exists s'. split; [exact E | ]. split; [exact P | ]. split; [exact T | ].
  apply C. discriminate.
Defined.

Lemma session_reports_times_witness :
  exists e s' t,
    @in_session debug_vm 3 sample_block idle_state = Ok (e, s')
    /\ calls s' =
         [tracer_report_gc_start 3 1000; heap_trace_heap_BeforeGC;
          policy_record_cycle_start; heuristics_record_cycle_start]
         ++ t ++ [heuristics_record_cycle_end; tracer_report_gc_end 0]
    /\ (forall stack, brackets t stack = Some stack)
    /\ gc_timer s' = mkTimer 1000 (ticks s').
Proof.
  exact (@session_reports_times debug_vm 3 sample_block idle_state
           eq_refl (or_intror eq_refl)).
Defined.

Lemma alloc_trace_without_tracker_witness :
  @ShenandoahAllocTrace_dtor debug_vm (mkAllocTrace 0%float 64 1)
     (with_alloc_tracker None idle_state) = Fatal "Must be"
  /\ @ShenandoahAllocTrace_dtor product_vm (mkAllocTrace 0%float 64 1)
       (with_alloc_tracker None idle_state) = Undefined.
Proof.
  split.
  - exact (proj1 (@alloc_trace_without_tracker debug_vm (mkAllocTrace 0%float 64 1)
                    (with_alloc_tracker None idle_state) eq_refl eq_refl) eq_refl).
  - exact (proj2 (@alloc_trace_without_tracker product_vm (mkAllocTrace 0%float 64 1)
                    (with_alloc_tracker None idle_state) eq_refl eq_refl) eq_refl).
Defined.

Lemma allocations_traced_witness :
  exists s',
    @allocations debug_vm sample_allocations idle_state = Ok (tt, s')
    /\ alloc_tracker s' = Some [mkLatency 64 1 150%float; mkLatency 8 0 50%float]
    /\ warnings s' = [Allocation_stall 150%float 100].
Proof.
  destruct (@allocations_traced debug_vm sample_allocations idle_state []
              eq_refl eq_refl) as (s' & E & A & W & _).
  exists s'. split; [exact E | ]. split; [exact A | exact W].
Defined.

Lemma allocations_untraced_witness :
  exists s',
    @allocations (sample_vm true false 100) sample_allocations
       (with_alloc_tracker None idle_state) = Ok (tt, s')
    /\ alloc_tracker s' = None
    /\ warnings s' = []
    /\ calls s' = [].
Proof.
  exact (@allocations_untraced (sample_vm true false 100) sample_allocations
           (with_alloc_tracker None idle_state) eq_refl).
Defined.

Lemma pause_record_carries_session_cause_witness :
  exists session s1 e s2 mark s3,
    @ShenandoahGCSession_ctor debug_vm 3 idle_state = Ok (session, s1)
    /\ @exec debug_vm sample_block s1 = Ok (e, s2)
    /\ @ShenandoahGCPauseMark_ctor 0 s2 = Ok (mark, s3)
    /\ cause (_trace_pause mark) = 3.
Proof.
  eexists; eexists.
  destruct (@pause_record_carries_session_cause debug_vm 3 0 sample_block
              idle_state _ _ eq_refl (or_intror eq_refl))
    as (e & s2 & mark & s3 & E & Ep & Hc & _).
  exists e, s2, mark, s3.
  split; [reflexivity | ].
  split; [exact E | ].
  split; [exact Ep | exact Hc].
Defined.

Lemma interleaved_guards_do_not_restore_witness :
  exists g1 s1 g2 s2 s3 s4,
    @ShenandoahGCPhase_ctor debug_vm 2 idle_state = Ok (g1, s1)
    /\ @ShenandoahGCPhase_ctor debug_vm 5 s1 = Ok (g2, s2)
    /\ ShenandoahGCPhase_dtor g1 s2 = Ok (tt, s3)
    /\ _current_phase s3 = 30
    /\ ShenandoahGCPhase_dtor g2 s3 = Ok (tt, s4)
    /\ _current_phase s4 = 2.
Proof.
  exact (@interleaved_guards_do_not_restore debug_vm 2 5 idle_state
           (or_intror eq_refl)).
Defined.

Lemma session_unchecked_in_product_witness :
  exists e s',
    @in_session product_vm 3 sample_block (sample_state 5 (worker_thread 3) 0%float)
      = Ok (e, s')
    /\ gc_cause s' = 12
    /\ _current_phase s' = 5.
Proof.
  exact (@session_unchecked_in_product product_vm 3 sample_block
           (sample_state 5 (worker_thread 3) 0%float) eq_refl).
Defined.
